(** * TETFund monitoring report: record model, summary and renderers

    A shallow embedding of [app.py].  Python dictionaries with the fixed
    key set [PROJECT_COLUMNS] are records of dynamically typed cells, a
    [pandas] frame is the list of its rows, exceptions are an explicit
    [result] type and the Streamlit session is passed as a state.

    Numbers: a Python [float] is read as the exact rational it denotes,
    with one extra value [NaN]; infinities and rounding are not part of
    the model. *)

From Stdlib Require Import QArith Qround Qabs ZArith List String Ascii Lia Lqa.
From stdpp Require Import gmap strings list.

Local Open Scope Q_scope.

(** ** Values *)

(** A float: a finite value or NaN. *)
Inductive num : Type :=
| Fin (q : Q)
| NaN.

(** What a dictionary entry or a frame cell can hold. *)
Inductive cell : Type :=
| Num (x : num)
| Text (s : string)
| NoneC.

Definition Int (z : Z) : cell := Num (Fin (inject_Z z)).
Definition Flt (q : Q) : cell := Num (Fin q).

(** Float arithmetic, NaN absorbing. *)
Definition nadd (a b : num) : num :=
  match a, b with Fin x, Fin y => Fin (x + y) | _, _ => NaN end.
Definition nsub (a b : num) : num :=
  match a, b with Fin x, Fin y => Fin (x - y) | _, _ => NaN end.
Definition nmul (a b : num) : num :=
  match a, b with Fin x, Fin y => Fin (x * y) | _, _ => NaN end.
(** Division by the literal 100. *)
Definition ndiv100 (a : num) : num :=
  match a with Fin x => Fin (x / 100) | NaN => NaN end.
(** [a >= k]; any comparison with NaN is false. *)
Definition nge (a : num) (k : Q) : bool :=
  match a with Fin x => Qle_bool k x | NaN => false end.

(** Equality of floats as numbers. *)
Definition num_eq (a b : num) : Prop :=
  match a, b with
  | Fin x, Fin y => x == y
  | NaN, NaN => True
  | _, _ => False
  end.

(** ** Exceptions *)

Inductive exn : Type :=
| TypeError
| ValueError
| KeyError (k : string)
| JSONDecodeError
| AttributeError
| NameError
| OverflowError
| KeyboardInterrupt.

(** [isinstance(e, Exception)]: everything here but [KeyboardInterrupt],
    which derives from [BaseException] only. *)
Definition is_Exception (e : exn) : bool :=
  match e with KeyboardInterrupt => false | _ => true end.

Inductive result (A : Type) : Type :=
| Ok (a : A)
| Raise (e : exn).
Arguments Ok {A} a.
Arguments Raise {A} e.

Definition rbind {A B} (m : result A) (k : A -> result B) : result B :=
  match m with Ok a => k a | Raise e => Raise e end.

Notation "'let*' x := m 'in' k" := (rbind m (fun x => k))
  (at level 10, x name, m at level 100, k at level 200).

(** ** Record model *)

(** A project dictionary; the fields are [PROJECT_COLUMNS] in order. *)
Record Project : Type := mkProject {
  s_no : cell;
  project : cell;
  approved_cost : cell;
  contract_sum : cell;
  disbursed : cell;
  balance : cell;
  quality : cell;
  compliance : cell;
  other_obs : cell;
  completion : cell;
  docs : cell;
  recommendation : cell
}.

Definition DEFAULT_BANK_CHARGES_AMOUNT : Q := 215013.

Definition DEFAULT_PROJECT : Project := {|
  s_no := Int 1;
  project := Text "New Project";
  approved_cost := Flt 0;
  contract_sum := Flt 0;
  disbursed := Flt 0;
  balance := Flt 100;
  quality := Text "Good";
  compliance := Text "Compliant";
  other_obs := Text "";
  completion := Flt 0;
  docs := Text "Pending";
  recommendation := Text "Pending Review"
|}.

(** Column assignment [p[key] = v]. *)
Definition set_s_no (v : cell) (p : Project) : Project :=
  mkProject v (project p) (approved_cost p) (contract_sum p) (disbursed p)
    (balance p) (quality p) (compliance p) (other_obs p) (completion p)
    (docs p) (recommendation p).
Definition set_disbursed (v : cell) (p : Project) : Project :=
  mkProject (s_no p) (project p) (approved_cost p) (contract_sum p) v
    (balance p) (quality p) (compliance p) (other_obs p) (completion p)
    (docs p) (recommendation p).
Definition set_balance (v : cell) (p : Project) : Project :=
  mkProject (s_no p) (project p) (approved_cost p) (contract_sum p)
    (disbursed p) v (quality p) (compliance p) (other_obs p) (completion p)
    (docs p) (recommendation p).
Definition set_completion (v : cell) (p : Project) : Project :=
  mkProject (s_no p) (project p) (approved_cost p) (contract_sum p)
    (disbursed p) (balance p) (quality p) (compliance p) (other_obs p) v
    (docs p) (recommendation p).

(** ** Frames *)

(** A frame is the list of its rows; a series is a list of values. *)
Definition DataFrame : Type := list Project.

(** [df[key]] *)
Definition column (key : Project -> cell) (df : DataFrame) : list cell :=
  map key df.

(** [df[key] = series], for a series as long as the frame. *)
Definition assign (set : cell -> Project -> Project)
    (series : list cell) (df : DataFrame) : DataFrame :=
  zip_with set series df.

(** [range(a, a + n)] *)
Definition range (a : Z) (n : nat) : list Z :=
  map (fun k => (a + Z.of_nat k)%Z) (seq 0 n).

Section Recalc.

(** The numeric-string reader of [pandas.to_numeric]; under
    [errors="coerce"] a string it cannot read becomes NaN. *)
Variable parse_numeric : string -> num.

(** [pd.to_numeric(series, errors="coerce")] *)
Definition to_numeric (series : list cell) : list num :=
  map (fun c => match c with
                | Num x => x
                | Text s => parse_numeric s
                | NoneC => NaN
                end) series.

(** [series.fillna(v)] *)
Definition fillna (v : Q) (series : list num) : list num :=
  map (fun x => match x with NaN => Fin v | Fin q => Fin q end) series.

(** [k - series] *)
Definition rsub (k : Q) (series : list num) : list num :=
  map (fun x => nsub (Fin k) x) series.

Definition recalc_projects (df : DataFrame) : DataFrame :=
  let disbursed_col := fillna 0 (to_numeric (column disbursed df)) in
  let df := assign set_disbursed (map Num disbursed_col) df in
  let completion_col := fillna 0 (to_numeric (column completion df)) in
  let df := assign set_completion (map Num completion_col) df in
  (* df["disbursed"] read back is the series stored two lines up *)
  let df := assign set_balance (map Num (rsub 100 disbursed_col)) df in
  let df := assign set_s_no (map Int (range 1 (length df))) df in
  df.

(** The same pass in the words of the specification, project by
    project: the number a cell is coerced to, and what becomes of the
    row at index [i]. *)
Definition coerce (c : cell) : Q :=
  match c with
  | Num (Fin q) => q
  | Num NaN => 0
  | Text s => match parse_numeric s with Fin q => q | NaN => 0 end
  | NoneC => 0
  end.

Definition recalc_row (i : nat) (p : Project) : Project := {|
  s_no := Int (1 + Z.of_nat i);
  project := project p;
  approved_cost := approved_cost p;
  contract_sum := contract_sum p;
  disbursed := Flt (coerce (disbursed p));
  balance := Flt (100 - coerce (disbursed p));
  quality := quality p;
  compliance := compliance p;
  other_obs := other_obs p;
  completion := Flt (coerce (completion p));
  docs := docs p;
  recommendation := recommendation p
|}.

End Recalc.

(** ** Project list commands ([main], "Add Project" and "Remove Last
    Project" buttons) *)

(** [new = DEFAULT_PROJECT.copy(); new["s_no"] = len(projects) + 1;
    projects.append(new)] *)
Definition add_project (projects : list Project) : list Project :=
  let new := DEFAULT_PROJECT in
  let new := set_s_no (Int (Z.of_nat (length projects) + 1)) new in
  projects ++ [new].

(** [if projects: projects.pop()] *)
Definition remove_last_project (projects : list Project) : list Project :=
  match projects with
  | [] => projects
  | _ :: _ => removelast projects
  end.

(** ** Summary statistics ([main]) *)

(** The summary dictionary. *)
Record Summary : Type := mkSummary {
  total_projects : nat;
  completed : nat;
  in_progress : Z;
  completion_rate : Q;
  total_approved : num;
  total_contract : num;
  total_disbursed : num;
  summary_balance : num
}.

(** Python operators on dictionary entries: a string or [None] operand
    raises [TypeError]. *)
Definition as_number (c : cell) : result num :=
  match c with
  | Num x => Ok x
  | Text _ | NoneC => Raise TypeError
  end.

(** [c >= 100] *)
Definition ge_100 (c : cell) : result bool :=
  let* x := as_number c in Ok (nge x 100).

(** [sum(1 for p in projects if p["completion"] >= 100)] *)
Fixpoint count_completed (projects : list Project) (acc : nat) : result nat :=
  match projects with
  | [] => Ok acc
  | p :: rest =>
      let* b := ge_100 (completion p) in
      count_completed rest (if b then S acc else acc)
  end.

(** [sum(term(p) for p in projects)]: a left fold from the integer 0. *)
Fixpoint py_sum (term : Project -> result num) (projects : list Project)
    (acc : num) : result num :=
  match projects with
  | [] => Ok acc
  | p :: rest =>
      let* x := term p in
      py_sum term rest (nadd acc x)
  end.

(** [(p["disbursed"] / 100) * p["contract_sum"]] *)
Definition disbursed_amount (p : Project) : result num :=
  let* d := as_number (disbursed p) in
  let* c := as_number (contract_sum p) in
  Ok (nmul (ndiv100 d) c).

Definition summary_statistics (projects : list Project)
    (bank_charges_added : bool) (bank_charges_amount : Q) : result Summary :=
  let total_projects := length projects in
  let* completed := count_completed projects 0 in
  let in_progress := (Z.of_nat total_projects - Z.of_nat completed)%Z in
  let completion_rate :=
    match total_projects with
    | O => 0
    | S _ => inject_Z (Z.of_nat completed)
             / inject_Z (Z.of_nat total_projects) * 100
    end in
  let* total_approved := py_sum (fun p => as_number (approved_cost p)) projects (Fin 0) in
  let* total_contract := py_sum (fun p => as_number (contract_sum p)) projects (Fin 0) in
  let* total_disbursed := py_sum disbursed_amount projects (Fin 0) in
  let '(total_approved, total_contract, total_disbursed) :=
    if bank_charges_added then
      let bank_charges := Fin bank_charges_amount in
      (nadd total_approved bank_charges,
       nadd total_contract bank_charges,
       nadd total_disbursed bank_charges)
    else (total_approved, total_contract, total_disbursed) in
  Ok {|
    total_projects := total_projects;
    completed := completed;
    in_progress := in_progress;
    completion_rate := completion_rate;
    total_approved := total_approved;
    total_contract := total_contract;
    total_disbursed := total_disbursed;
    summary_balance := nsub total_contract total_disbursed
  |}.

(** The sums and counts in the words of the specification, over the
    numbers the entries hold. *)
Definition number_in (c : cell) : Q :=
  match c with Num (Fin q) => q | _ => 0 end.

Fixpoint sigma (f : Project -> Q) (projects : list Project) : Q :=
  match projects with
  | [] => 0
  | p :: rest => f p + sigma f rest
  end.

Definition count_if (test : Project -> bool) (projects : list Project) : nat :=
  length (List.filter test projects).

(** What the specification calls the disbursed amount of a project. *)
Definition disbursed_share (p : Project) : Q :=
  number_in (disbursed p) / 100 * number_in (contract_sum p).

Definition is_completed (p : Project) : bool :=
  Qle_bool 100 (number_in (completion p)).

(** The rider's contribution to a total. *)
Definition rider (added : bool) (amount : Q) : Q :=
  if added then amount else 0.

(** The totals as sums over the projects alone, rider left out. *)
Definition totals_without_rider (ps : list Project) (s : Summary) : Prop :=
  num_eq (total_approved s)
    (Fin (sigma (fun p => number_in (approved_cost p)) ps))
  /\ num_eq (total_contract s)
       (Fin (sigma (fun p => number_in (contract_sum p)) ps))
  /\ num_eq (total_disbursed s) (Fin (sigma disbursed_share ps)).

(** The two projects of the specification's example: approved and
    contract 1000 and 2000, disbursed 50 and 100 percent. *)
Definition example_projects : list Project := [
  {| s_no := Int 1; project := Text "Library"; approved_cost := Flt 1000;
     contract_sum := Flt 1000; disbursed := Flt 50; balance := Flt 50;
     quality := Text "Good"; compliance := Text "Compliant";
     other_obs := Text ""; completion := Flt 40; docs := Text "Pending";
     recommendation := Text "Pending Review" |};
  {| s_no := Int 2; project := Text "Laboratory"; approved_cost := Flt 2000;
     contract_sum := Flt 2000; disbursed := Flt 100; balance := Flt 0;
     quality := Text "Excellent"; compliance := Text "Compliant";
     other_obs := Text ""; completion := Flt 100; docs := Text "Submitted";
     recommendation := Text "Processed" |}
].

Definition is_Ok {A} (r : result A) : Prop :=
  match r with Ok _ => True | Raise _ => False end.

(** A frame as the editor can hand it over: a percentage typed as
    text, unreadable text, an empty cell, stale balances and numbers. *)
Definition example_frame : DataFrame := [
  {| s_no := Int 7; project := Text "Library"; approved_cost := Flt 1000;
     contract_sum := Flt 1000; disbursed := Text "12.5"; balance := NoneC;
     quality := Text "Good"; compliance := Text "Compliant";
     other_obs := Text ""; completion := Text "n/a"; docs := Text "Pending";
     recommendation := Text "Pending Review" |};
  {| s_no := NoneC; project := Text "Laboratory"; approved_cost := Flt 2000;
     contract_sum := Flt 2000; disbursed := NoneC; balance := Flt 3;
     quality := Text "Excellent"; compliance := Text "Compliant";
     other_obs := Text ""; completion := Num NaN; docs := Text "Submitted";
     recommendation := Text "Processed" |}
].

(** A reader that knows the one numeric string of the example. *)
Definition example_reader (s : string) : num :=
  if String.eqb s "12.5" then Fin (25 # 2) else NaN.

(** The four entries the aggregator reads hold finite numbers. *)
Definition finite (c : cell) : Prop :=
  match c with Num (Fin _) => True | _ => False end.

Definition well_formed (p : Project) : Prop :=
  finite (approved_cost p) /\ finite (contract_sum p)
  /\ finite (disbursed p) /\ finite (completion p).

(** ** Number formatting *)

Definition dq : string := String (ascii_of_nat 34) EmptyString.

Definition digit (n : Z) : ascii := ascii_of_nat (48 + Z.to_nat n).

(** The decimal digits of [n >= 0], most significant first; [fuel]
    bounds the number of digits. *)
Fixpoint digits_upto (fuel : nat) (n : Z) (acc : list ascii) : list ascii :=
  match fuel with
  | O => acc
  | S fuel' =>
      if (n <? 10)%Z then digit n :: acc
      else digits_upto fuel' (n / 10)%Z (digit (n mod 10)%Z :: acc)
  end.

Definition digits (n : Z) : list ascii :=
  digits_upto (S (Z.to_nat (Z.log2 n))) n [].

(** The number a string of digits denotes. *)
Definition digit_value (c : ascii) : Z := (Z.of_nat (nat_of_ascii c) - 48)%Z.

Definition value_of (ds : list ascii) : Z :=
  fold_left (fun v c => (10 * v + digit_value c)%Z) ds 0%Z.

(** Exactly [width] digits of [n], zero padded. *)
Fixpoint fixed_digits (width : nat) (n : Z) : list ascii :=
  match width with
  | O => []
  | S w => fixed_digits w (n / 10)%Z ++ [digit (n mod 10)%Z]
  end.

(** The [,] option of a format specification: a comma before every
    group of three digits, counted from the right.  [commas_rev] works on
    the reversed digits, [k] counting the digits of the current group. *)
Fixpoint commas_rev (k : nat) (rds : list ascii) : list ascii :=
  match rds with
  | [] => []
  | d :: rest =>
      match k with
      | 3%nat => ","%char :: d :: commas_rev 1 rest
      | _ => d :: commas_rev (S k) rest
      end
  end.

Definition group3 (ds : list ascii) : list ascii :=
  rev (commas_rev 0 (rev ds)).

(** Rounding to the nearest integer, ties to even, of [q >= 0]. *)
Definition round_half_even (q : Q) : Z :=
  let f := Qfloor q in
  match Qcompare (q - inject_Z f) (1 # 2) with
  | Lt => f
  | Gt => (f + 1)%Z
  | Eq => if Z.even f then f else (f + 1)%Z
  end.

(** The sign a format prints. *)
Definition sign_of (q : Q) : list ascii :=
  if Qlt_le_dec q 0 then ["-"%char] else [].

(** [format(x, ".{decimals}f")], with the [,] option when [grouping]. *)
Definition format_f (decimals : nat) (grouping : bool) (x : num) : string :=
  match x with
  | NaN => "nan"
  | Fin q =>
      let unit := (10 ^ Z.of_nat decimals)%Z in
      let scaled := round_half_even (Qabs q * inject_Z unit) in
      let int_part := digits (scaled / unit)%Z in
      let int_part := if grouping then group3 int_part else int_part in
      let frac_part :=
        match decimals with
        | O => []
        | S _ => "."%char :: fixed_digits decimals (scaled mod unit)%Z
        end in
      string_of_list_ascii (sign_of q ++ int_part ++ frac_part)
  end.

(** The f-string pieces [₦{x:,.Nf}] and [{x:.1f}%]. *)
Definition currency (decimals : nat) (x : num) : string :=
  "₦" +:+ format_f decimals true x.
Definition percent (x : num) : string :=
  format_f 1 false x +:+ "%".

Definition str_int (n : nat) : string :=
  string_of_list_ascii (digits (Z.of_nat n)).

Definition str_Z (z : Z) : string :=
  if (z <? 0)%Z then "-" +:+ string_of_list_ascii (digits (- z))
  else string_of_list_ascii (digits z).

(** [needle] occurs in [hay] as it stands. *)
Definition occurs (needle hay : string) : Prop :=
  exists before after, hay = before +:+ needle +:+ after.

(** Entries of the kind the editor produces: text in the text
    columns, finite numbers in the numeric ones. *)
Definition is_text (c : cell) : Prop :=
  match c with Text _ => True | _ => False end.

Definition text_in (c : cell) : string :=
  match c with Text s => s | _ => "" end.

Definition renderable (p : Project) : Prop :=
  is_text (project p) /\ is_text (quality p) /\ is_text (compliance p)
  /\ is_text (other_obs p) /\ is_text (docs p) /\ is_text (recommendation p)
  /\ finite (approved_cost p) /\ finite (contract_sum p)
  /\ finite (disbursed p) /\ finite (balance p) /\ finite (completion p).

(** The entries of a project as the table is to show them: the texts as
    they are, the costs as currency without decimals, the percentages
    with one decimal. *)
Definition shown_verbatim (p : Project) (html : string) : Prop :=
  occurs (text_in (project p)) html
  /\ occurs (text_in (quality p)) html
  /\ occurs (text_in (compliance p)) html
  /\ occurs (text_in (other_obs p)) html
  /\ occurs (text_in (docs p)) html
  /\ occurs (text_in (recommendation p)) html
  /\ occurs (currency 0 (Fin (number_in (approved_cost p)))) html
  /\ occurs (currency 0 (Fin (number_in (contract_sum p)))) html
  /\ occurs (percent (Fin (number_in (disbursed p)))) html
  /\ occurs (percent (Fin (number_in (balance p)))) html
  /\ occurs (percent (Fin (number_in (completion p)))) html.

(** ** Document renderer *)

Module team_member.
(** A monitoring team entry. *)
Record t : Type := mk { name : cell; designation : cell }.
End team_member.

Module institution_info.
Record t : Type := mk {
  name : string; location : string; year : string; date : string
}.
End institution_info.

Module approval_info.
Record t : Type := mk {
  status : string; officer : string; date : string; comments : string
}.
End approval_info.

(** What the page shows through [st.error], [st.success] and the like. *)
Inductive message : Type :=
| st_error (text : string)
| st_success (text : string)
| st_download_button (label : string) (data : string).

Section Renderer.

(** [repr] of a float, the string reader of [float(...)], the clock
    and the three services of the PDF engine and of [traceback] are
    taken as given. *)
Variable repr_float : num -> string.
Variable float_of_string : string -> option num.
Variable now : string.
Variable write_pdf : string -> result string.
Variable str_exn : exn -> string.
Variable format_exc : exn -> string.

(** [str(c)], as an f-string field without a format specification. *)
Definition str (c : cell) : string :=
  match c with
  | Text s => s
  | Num x => repr_float x
  | NoneC => "None"
  end.

(** What one table row shows of its project. *)
Definition shows (p : Project) (a c d b k : num) (html : string) : Prop :=
  occurs (str (project p)) html /\ occurs (str (quality p)) html
  /\ occurs (str (compliance p)) html /\ occurs (str (other_obs p)) html
  /\ occurs (str (docs p)) html /\ occurs (str (recommendation p)) html
  /\ occurs (currency 0 a) html /\ occurs (currency 0 c) html
  /\ occurs (percent d) html /\ occurs (percent b) html
  /\ occurs (percent k) html.

(** [float(c)] *)
Definition py_float (c : cell) : result num :=
  match c with
  | Num x => Ok x
  | Text s =>
      match float_of_string s with
      | Some x => Ok x
      | None => Raise ValueError
      end
  | NoneC => Raise TypeError
  end.

(** One table row of the project table. *)
Definition project_row_html (i : nat) (p : Project)
    (approved_cost contract_sum disbursed balance completion : num)
    : string :=
  String.concat "" [
    "
        <tr>
            <td style=";
    dq; "text-align: center;"; dq; ">"; str_int i;
    "</td>
            <td>";
    str (project p);
    "</td>
            <td style=";
    dq; "text-align: right;"; dq; ">"; currency 0 approved_cost;
    "</td>
            <td style=";
    dq; "text-align: right;"; dq; ">"; currency 0 contract_sum;
    "</td>
            <td style=";
    dq; "text-align: center;"; dq; ">"; percent disbursed;
    "</td>
            <td style=";
    dq; "text-align: center;"; dq; ">"; percent balance;
    "</td>
            <td style=";
    dq; "text-align: center;"; dq; ">"; str (quality p);
    "</td>
            <td style=";
    dq; "text-align: center;"; dq; ">"; str (compliance p);
    "</td>
            <td>";
    str (other_obs p);
    "</td>
            <td style=";
    dq; "text-align: center;"; dq; ">"; percent completion;
    "</td>
            <td style=";
    dq; "text-align: center;"; dq; ">"; str (docs p);
    "</td>
            <td>";
    str (recommendation p);
    "</td>
        </tr>
        "
  ].

(** The table row of a project whose numeric entries hold finite
    numbers, and the table body of a list of such projects: the rows in
    list order, numbered from 1. *)
Definition row_of (i : nat) (p : Project) : string :=
  project_row_html i p
    (Fin (number_in (approved_cost p))) (Fin (number_in (contract_sum p)))
    (Fin (number_in (disbursed p))) (Fin (number_in (balance p)))
    (Fin (number_in (completion p))).

Definition table_body (projects : list Project) : string :=
  String.concat "" (imap (fun k p => row_of (S k) p) projects).

(** One row of the team table. *)
Definition team_row_html (i : nat) (m : team_member.t) : string :=
  String.concat "" [
    "
        <tr>
            <td style=";
    dq; "text-align: center;"; dq; ">"; str_int i;
    "</td>
            <td>";
    str (team_member.name m);
    "</td>
            <td>";
    str (team_member.designation m);
    "</td>
            <td style=";
    dq; "text-align: center;"; dq;
    ">________________</td>
        </tr>
        "
  ].

(** The page template. *)
Definition page_html
    (page_size logo_html project_rows team_rows now : string)
    (institution_info : institution_info.t) (summary : Summary)
    (approval_info : approval_info.t) : string :=
  String.concat "" [
    "<!DOCTYPE html>
<html>
<head>
    <meta charset=";
    dq; "UTF-8"; dq;
    ">
    <title>TETFUND Monitoring Report</title>
    <style>
        @page {
            size: ";
    page_size;
    ";
            margin: 2cm;
        }
        body {
            font-family: Arial, Helvetica, sans-serif;
            font-size: 10pt;
            line-height: 1.4;
            color: #333;
        }
        h1 {
            color: #1E3A8A;
            font-size: 24pt;
            text-align: center;
            margin: 10px 0;
        }
        h2 {
            color: #1E3A8A;
            font-size: 16pt;
            text-align: center;
            margin: 5px 0;
        }
        h3 {
            color: #1E3A8A;
            font-size: 14pt;
            text-align: center;
            margin: 15px 0 10px 0;
        }
        table {
            width: 100%;
            border-collapse: collapse;
            margin: 15px 0;
            font-size: 9pt;
        }
        th {
            background-color: #1E3A8A;
            color: white;
            padding: 8px 4px;
            font-weight: bold;
            text-align: center;
            border: 1px solid #1E3A8A;
        }
        td {
            border: 1px solid #999;
            padding: 6px 4px;
            vertical-align: top;
        }
        .info-box {
            background-color: #f5f5f5;
            padding: 10px;
            margin: 15px 0;
            border: 1px solid #ddd;
            border-radius: 3px;
        }
        .signature {
            margin-top: 30px;
            padding-top: 10px;
        }
        .footer {
            text-align: center;
            font-size: 8pt;
            color: #666;
            margin-top: 30px;
            padding-top: 10px;
            border-top: 1px solid #ccc;
        }
        .text-center { text-align: center; }
        .text-right { text-align: right; }
    </style>
</head>
<body>
    ";
    logo_html;
    "
    
    <h1>TERTIARY EDUCATION TRUST FUND</h1>
    <h2>Monitoring & Evaluation Department</h2>
    <h3>Second / Final Tranche Monitoring Report</h3>

    <div class=";
    dq; "info-box"; dq;
    ">
        <strong>Institution:</strong> ";
    institution_info.name institution_info;
    " | 
        <strong>Location:</strong> ";
    institution_info.location institution_info;
    " | 
        <strong>Inspection Date:</strong> ";
    institution_info.date institution_info;
    " | 
        <strong>Intervention Year:</strong> ";
    institution_info.year institution_info;
    "
    </div>

    <h3>Projects Monitoring Details</h3>
    <table>
        <thead>
            <tr>
                <th style=";
    dq; "width: 3%;"; dq;
    ">S/N</th>
                <th style=";
    dq; "width: 12%;"; dq;
    ">Project</th>
                <th style=";
    dq; "width: 8%;"; dq;
    ">Approved (₦)</th>
                <th style=";
    dq; "width: 8%;"; dq;
    ">Contract (₦)</th>
                <th style=";
    dq; "width: 4%;"; dq;
    ">%Disb</th>
                <th style=";
    dq; "width: 4%;"; dq;
    ">%Bal</th>
                <th style=";
    dq; "width: 6%;"; dq;
    ">Quality</th>
                <th style=";
    dq; "width: 6%;"; dq;
    ">Compl</th>
                <th style=";
    dq; "width: 15%;"; dq;
    ">Observations</th>
                <th style=";
    dq; "width: 4%;"; dq;
    ">%Comp</th>
                <th style=";
    dq; "width: 6%;"; dq;
    ">Docs</th>
                <th style=";
    dq; "width: 14%;"; dq;
    ">Recommendation</th>
            </tr>
        </thead>
        <tbody>
            ";
    project_rows;
    "
        </tbody>
    </table>

    <div class=";
    dq; "info-box"; dq;
    ">
        <strong>Total Projects:</strong> ";
    str_int (total_projects summary);
    " | 
        <strong>Completed:</strong> ";
    str_int (completed summary);
    " | 
        <strong>In Progress:</strong> ";
    str_Z (in_progress summary);
    " | 
        <strong>Completion Rate:</strong> ";
    percent (Fin (completion_rate summary));
    "<br>
        <strong>Total Approved:</strong> ";
    currency 2 (total_approved summary);
    " | 
        <strong>Total Contract:</strong> ";
    currency 2 (total_contract summary);
    " | 
        <strong>Total Disbursed:</strong> ";
    currency 2 (total_disbursed summary);
    " | 
        <strong>Balance:</strong> ";
    currency 2 (summary_balance summary);
    "
    </div>

    <h3>Monitoring Team</h3>
    <table>
        <thead>
            <tr>
                <th style=";
    dq; "width: 10%;"; dq;
    ">S/N</th>
                <th style=";
    dq; "width: 40%;"; dq;
    ">Name</th>
                <th style=";
    dq; "width: 30%;"; dq;
    ">Designation</th>
                <th style=";
    dq; "width: 20%;"; dq;
    ">Signature</th>
            </tr>
        </thead>
        <tbody>
            ";
    team_rows;
    "
        </tbody>
    </table>

    <h3>DM&E Approval</h3>
    <div class=";
    dq; "info-box"; dq;
    ">
        <strong>Status:</strong> ";
    approval_info.status approval_info;
    " | 
        <strong>Officer:</strong> ";
    approval_info.officer approval_info;
    " | 
        <strong>Date:</strong> ";
    approval_info.date approval_info;
    "<br>
        <strong>Comments:</strong> ";
    approval_info.comments approval_info;
    "
    </div>

    <div class=";
    dq; "signature"; dq;
    ">
        <strong>DM&E Officer Signature:</strong><br>
        _________________________________________
    </div>

    <div class=";
    dq; "footer"; dq;
    ">
        Generated on ";
    now;
    "
    </div>
</body>
</html>"
  ].


(** The two forms of the logo block. *)
Definition logo_img_html (logo_base64 : string) : string :=
  String.concat "" [
    "<div style="; dq; "text-align: center;"; dq; "><img src="; dq;
    "data:image/png;base64,"; logo_base64; dq; " style="; dq;
    "height: 80px; width: auto;"; dq; "></div>"
  ].

Definition logo_title_html : string :=
  String.concat "" [
    "<h1 style="; dq; "text-align: center; color: #1E3A8A;"; dq;
    ">TERTIARY EDUCATION TRUST FUND</h1>"
  ].

(** The body of the loop over [enumerate(projects, 1)]; every key the
    loop reads with [p.get] is present in a project record. *)
Fixpoint project_rows_from (i : nat) (projects : list Project)
    (project_rows : string) : result string :=
  match projects with
  | [] => Ok project_rows
  | p :: rest =>
      let* approved_cost := py_float (approved_cost p) in
      let* contract_sum := py_float (contract_sum p) in
      let* disbursed := py_float (disbursed p) in
      let* balance := py_float (balance p) in
      let* completion := py_float (completion p) in
      project_rows_from (S i) rest
        (project_rows +:+ project_row_html i p approved_cost contract_sum
                            disbursed balance completion)
  end.

Fixpoint team_rows_from (i : nat) (monitoring_team : list team_member.t)
    (team_rows : string) : string :=
  match monitoring_team with
  | [] => team_rows
  | m :: rest => team_rows_from (S i) rest (team_rows +:+ team_row_html i m)
  end.

Definition create_html_report (projects : list Project)
    (institution_info : institution_info.t)
    (monitoring_team : list team_member.t)
    (approval_info : approval_info.t) (summary : Summary)
    (orientation : string) (logo_base64 : option string) : result string :=
  let page_size :=
    if String.eqb orientation "Landscape" then "A4 landscape" else "A4" in
  let* project_rows := project_rows_from 1 projects "" in
  let team_rows := team_rows_from 1 monitoring_team "" in
  let logo_html :=
    match logo_base64 with
    | Some logo =>
        if String.eqb logo "" then logo_title_html else logo_img_html logo
    | None => logo_title_html
    end in
  Ok (page_html page_size logo_html project_rows team_rows now
        institution_info summary approval_info).

(** [generate_pdf]: the [try] body, then the handler of
    [except Exception].  The second component is what was written to
    the page. *)
Definition generate_pdf (projects : list Project)
    (institution_info : institution_info.t)
    (monitoring_team : list team_member.t)
    (approval_info : approval_info.t) (summary : Summary)
    (orientation : string) (logo_base64 : option string)
    : result (option string) * list message :=
  let body :=
    let* html_content :=
      create_html_report projects institution_info monitoring_team
        approval_info summary orientation logo_base64 in
    let* pdf_file := write_pdf html_content in
    Ok (Some pdf_file) in
  match body with
  | Ok pdf => (Ok pdf, [])
  | Raise e =>
      if is_Exception e then
        (Ok None,
         [st_error ("PDF generation failed: " +:+ str_exn e);
          st_error (format_exc e)])
      else (Raise e, [])
  end.

End Renderer.

(** ** Session and the PDF request ([main]) *)

Module datetime.
Record date : Type := mk { year : Z; month : Z; day : Z }.
End datetime.

(** The entries of [st.session_state] that [main] reads. *)
Record Session : Type := mkSession {
  projects : list Project;
  institution_name : string;
  location : string;
  intervention_year : string;
  inspection_date : datetime.date;
  bank_charges_added : bool;
  bank_charges_amount : Q;
  monitoring_team : list team_member.t;
  approval_status : string;
  dme_officer : string;
  approval_comments : string;
  pdf_orientation : string
}.

(** The dictionary appended for the bank charges.  The literal has no
    ["s_no"] key; no reader of the list asks for it. *)
Definition bank_charges_row (bank_charges : Q) : Project := {|
  s_no := NoneC;
  project := Text "Bank and Administrative Charges";
  approved_cost := Flt bank_charges;
  contract_sum := Flt bank_charges;
  disbursed := Flt 100;
  balance := Flt 0;
  quality := Text "N/A";
  compliance := Text "N/A";
  other_obs := Text "Administrative charges";
  completion := Flt 100;
  docs := Text "Submitted";
  recommendation := Text "Processed"
|}.

(** [pdf_projects = st.session_state.projects.copy()], then the append
    under [if st.session_state.bank_charges_added]. *)
Definition pdf_projects (st : Session) : list Project :=
  let pdf_projects := projects st in
  if bank_charges_added st then
    let bank_charges := bank_charges_amount st in
    pdf_projects ++ [bank_charges_row bank_charges]
  else pdf_projects.

(** The three validation checks before the PDF button. *)
Definition valid (st : Session) : bool :=
  negb (String.eqb (institution_name st) "")
  && negb (String.eqb (location st) "")
  && negb (Nat.eqb (length (projects st)) 0).

(** A session with the example projects and the rider enabled. *)
Definition example_session : Session := {|
  projects := example_projects;
  institution_name := "Federal Polytechnic";
  location := "Ringim";
  intervention_year := "2025";
  inspection_date := datetime.mk 2026 11 3;
  bank_charges_added := true;
  bank_charges_amount := DEFAULT_BANK_CHARGES_AMOUNT;
  monitoring_team := [];
  approval_status := "Pending";
  dme_officer := "";
  approval_comments := "";
  pdf_orientation := "Landscape"
|}.

(** The call a renderer receives. *)
Record RenderCall : Type := mkRenderCall {
  call_projects : list Project;
  call_institution_info : institution_info.t;
  call_monitoring_team : list team_member.t;
  call_approval_info : approval_info.t;
  call_summary : Summary;
  call_orientation : string;
  call_logo : option string
}.

Section Main.

Variable strftime_d_b_Y : datetime.date -> string.
Variable LOGO_BASE64 : option string.

Definition institution_info_of (st : Session) : institution_info.t := {|
  institution_info.name := institution_name st;
  institution_info.location := location st;
  institution_info.year := intervention_year st;
  institution_info.date := strftime_d_b_Y (inspection_date st)
|}.

Definition approval_info_of (st : Session) (approval_date : datetime.date)
    : approval_info.t := {|
  approval_info.status := approval_status st;
  approval_info.officer := dme_officer st;
  approval_info.date := strftime_d_b_Y approval_date;
  approval_info.comments :=
    if String.eqb (approval_comments st) "" then "No comments provided"
    else approval_comments st
|}.

(** One pass of [main] with the PDF button pressed, up to the call of
    [generate_pdf]: the summary is computed from the stored list, then
    the arguments of the call are assembled.  [Ok None]: the validation
    refuses the request. *)
Definition pdf_request (st : Session) (approval_date : datetime.date)
    : result (option RenderCall) :=
  let* summary :=
    summary_statistics (projects st) (bank_charges_added st)
      (bank_charges_amount st) in
  if negb (valid st) then Ok None
  else
    Ok (Some {|
      call_projects := pdf_projects st;
      call_institution_info := institution_info_of st;
      call_monitoring_team := monitoring_team st;
      call_approval_info := approval_info_of st approval_date;
      call_summary := summary;
      call_orientation := pdf_orientation st;
      call_logo := LOGO_BASE64
    |}).

End Main.

Section PdfButton.

Variable repr_float : num -> string.
Variable float_of_string : string -> option num.
Variable now : string.
Variable write_pdf : string -> result string.
Variable str_exn : exn -> string.
Variable format_exc : exn -> string.
Variable strftime_d_b_Y : datetime.date -> string.
Variable LOGO_BASE64 : option string.

(** The rest of the button's branch: the call of [generate_pdf] and what
    [main] shows for its result ([if pdf_bytes: ... else: ...]).  The
    value is everything written to the page. *)
Definition pdf_button (st : Session) (approval_date : datetime.date)
    : result (list message) :=
  let* request := pdf_request strftime_d_b_Y LOGO_BASE64 st approval_date in
  match request with
  | None => Ok [st_error "Fix validation errors before generating PDF."]
  | Some call =>
      let '(returned, shown) :=
        generate_pdf repr_float float_of_string now write_pdf str_exn
          format_exc (call_projects call) (call_institution_info call)
          (call_monitoring_team call) (call_approval_info call)
          (call_summary call) (call_orientation call) (call_logo call) in
      let* pdf_bytes := returned in
      match pdf_bytes with
      | Some data =>
          if String.eqb data "" then
            Ok (shown ++ [st_error "❌ PDF generation failed. Check the error messages above."])
          else
            Ok (shown ++ [st_success "✅ Official PDF generated successfully!";
                          st_download_button "📥 Download Official PDF" data])
      | None =>
          Ok (shown ++ [st_error "❌ PDF generation failed. Check the error messages above."])
      end
  end.

End PdfButton.

(** A row whose approved cost is [None], for which [float] raises. *)
Definition broken_project : Project := {|
  s_no := Int 1;
  project := Text "New Project";
  approved_cost := NoneC;
  contract_sum := Flt 0;
  disbursed := Flt 0;
  balance := Flt 100;
  quality := Text "Good";
  compliance := Text "Compliant";
  other_obs := Text "";
  completion := Flt 0;
  docs := Text "Pending";
  recommendation := Text "Pending Review"
|}.

Definition sample_institution : institution_info.t := {|
  institution_info.name := "Federal Polytechnic";
  institution_info.location := "Ringim";
  institution_info.year := "2025";
  institution_info.date := "03-Nov-2026"
|}.

Definition sample_approval : approval_info.t := {|
  approval_info.status := "Pending";
  approval_info.officer := "";
  approval_info.date := "03-Nov-2026";
  approval_info.comments := "No comments provided"
|}.

Definition sample_summary : Summary := {|
  total_projects := 1; completed := 0; in_progress := 1;
  completion_rate := 0; total_approved := Fin 0; total_contract := Fin 0;
  total_disbursed := Fin 0; summary_balance := Fin 0
|}.

(** ** Draft snapshot ([init_state], [load_autosave]) *)

(** A decoded JSON document. *)
#[local] Unset Elimination Schemes.
Inductive json : Type :=
| JNull
| JBool (b : bool)
| JNumber (x : num)
| JString (s : string)
| JArray (items : list json)
| JObject (members : list (string * json)).
#[local] Set Elimination Schemes.

(** What [st.session_state] holds under a key. *)
Inductive pyvalue : Type :=
| PJson (j : json)
| PDate (d : datetime.date).

(** The autosave file as [load_autosave] meets it: absent, or present
    with what [json.load] makes of its text ([None]: it raises). *)
Inductive autosave_file : Type :=
| NoFile
| FileWith (parsed : option json).

(** A JSON object read as a dictionary: of two members with one key the
    later one stays. *)
Definition dict_of (members : list (string * json)) : gmap string json :=
  list_to_map (rev members).

(** [draft[key]] *)
Definition getitem (draft : json) (key : string) : result json :=
  match draft with
  | JObject members =>
      match dict_of members !! key with
      | Some v => Ok v
      | None => Raise (KeyError key)
      end
  | _ => Raise TypeError
  end.

(** [draft.get(key, default)] *)
Definition dict_get (draft : json) (key : string) (fallback : json)
    : result json :=
  match draft with
  | JObject members => Ok (default fallback (dict_of members !! key))
  | _ => Raise AttributeError
  end.

Definition json_of_cell (c : cell) : json :=
  match c with
  | Num x => JNumber x
  | Text s => JString s
  | NoneC => JNull
  end.

Definition json_of_project (p : Project) : json :=
  JObject [
    ("s_no", json_of_cell (s_no p));
    ("project", json_of_cell (project p));
    ("approved_cost", json_of_cell (approved_cost p));
    ("contract_sum", json_of_cell (contract_sum p));
    ("disbursed", json_of_cell (disbursed p));
    ("balance", json_of_cell (balance p));
    ("quality", json_of_cell (quality p));
    ("compliance", json_of_cell (compliance p));
    ("other_obs", json_of_cell (other_obs p));
    ("completion", json_of_cell (completion p));
    ("docs", json_of_cell (docs p));
    ("recommendation", json_of_cell (recommendation p))
  ]%string.

Definition DEFAULT_MONITORING_TEAM : json :=
  JArray [
    JObject [("name", JString "Arch. A.A."); ("designation", JString "Team Lead")];
    JObject [("name", JString "Engr. A.B."); ("designation", JString "Monitor")];
    JObject [("name", JString "Mr. A.C."); ("designation", JString "Engineer")]
  ]%string.

(** Session code: a state and exception monad over the session store.
    When a step raises, the store is left as the earlier steps made it. *)
Abbreviation Store := (gmap string pyvalue).
Definition M (A : Type) : Type := Store -> result A * Store.

Definition ret {A} (a : A) : M A := fun st => (Ok a, st).
Definition lift {A} (r : result A) : M A := fun st => (r, st).
Definition bind {A B} (m : M A) (k : A -> M B) : M B :=
  fun st =>
    match m st with
    | (Ok a, st') => k a st'
    | (Raise e, st') => (Raise e, st')
    end.
(** [st.session_state.key = v] *)
Definition setattr (key : string) (v : pyvalue) : M unit :=
  fun st => (Ok tt, <[key := v]> st).

Notation "'let!' x := m 'in' k" := (bind m (fun x => k))
  (at level 10, x name, m at level 100, k at level 200).
Notation "m ;;; k" := (bind m (fun _ => k))
  (at level 100, k at level 200, right associativity).

(** Truth value of a session entry, [None] when the key is absent. *)
Definition truthy (v : option pyvalue) : bool :=
  match v with
  | None => false
  | Some (PDate _) => true
  | Some (PJson j) =>
      match j with
      | JNull => false
      | JBool b => b
      | JNumber (Fin q) => negb (Qeq_bool q 0)
      | JNumber NaN => true
      | JString s => negb (String.eqb s "")
      | JArray items => negb (Nat.eqb (length items) 0)
      | JObject members => negb (Nat.eqb (length members) 0)
      end
  end.

Section Draft.

(** [datetime.fromisoformat(text).date()], [None] when it raises
    [ValueError]; the day and the year of [datetime.now()]. *)
Variable fromisoformat_date : string -> option datetime.date.
Variable today : datetime.date.
Variable this_year : string.

Definition init_defaults : list (string * pyvalue) := [
  ("projects", PJson (JArray [json_of_project DEFAULT_PROJECT]));
  ("institution_name", PJson (JString ""));
  ("location", PJson (JString ""));
  ("intervention_year", PJson (JString this_year));
  ("inspection_date", PDate today);
  ("bank_charges_added", PJson (JBool false));
  ("bank_charges_amount", PJson (JNumber (Fin DEFAULT_BANK_CHARGES_AMOUNT)));
  ("monitoring_team", PJson DEFAULT_MONITORING_TEAM);
  ("approval_status", PJson (JString "Pending"));
  ("dme_officer", PJson (JString ""));
  ("approval_comments", PJson (JString ""));
  ("generated_reports", PJson (JArray []));
  ("draft_loaded", PJson JNull);
  ("pdf_orientation", PJson (JString "Landscape"))
]%string.

(** [for k, v in defaults.items(): if k not in st.session_state: ...] *)
Definition init_store (st : Store) : Store :=
  fold_left (fun st kv =>
               match st !! kv.1 with
               | Some _ => st
               | None => <[kv.1 := kv.2]> st
               end) init_defaults st.

Definition init_state : M unit := fun st => (Ok tt, init_store st).

(** [datetime.fromisoformat(v).date()] on a decoded value. *)
Definition parse_date (v : json) : result datetime.date :=
  match v with
  | JString text =>
      match fromisoformat_date text with
      | Some d => Ok d
      | None => Raise ValueError
      end
  | _ => Raise TypeError
  end.

(** [st.session_state.key = draft[key]] *)
Definition load_key (draft : json) (key : string) : M unit :=
  let! v := lift (getitem draft key) in setattr key (PJson v).

Definition load_autosave (file : autosave_file) : M unit :=
  match file with
  | NoFile => ret tt
  | FileWith parsed =>
      let! draft :=
        lift (match parsed with
              | Some j => Ok j
              | None => Raise JSONDecodeError
              end) in
      load_key draft "projects" ;;;
      load_key draft "institution_name" ;;;
      load_key draft "location" ;;;
      load_key draft "intervention_year" ;;;
      (let! v := lift (getitem draft "inspection_date") in
       let! d := lift (parse_date v) in
       setattr "inspection_date" (PDate d)) ;;;
      load_key draft "bank_charges_added" ;;;
      (let! v := lift (dict_get draft "bank_charges_amount"
                         (JNumber (Fin DEFAULT_BANK_CHARGES_AMOUNT))) in
       setattr "bank_charges_amount" (PJson v)) ;;;
      load_key draft "monitoring_team" ;;;
      load_key draft "approval_status" ;;;
      load_key draft "dme_officer" ;;;
      load_key draft "approval_comments" ;;;
      (let! v := lift (dict_get draft "pdf_orientation" (JString "Landscape")) in
       setattr "pdf_orientation" (PJson v)) ;;;
      (let! v := lift (dict_get draft "saved_at" JNull) in
       setattr "draft_loaded" (PJson v))
  end.

(** The module-level caller: [init_state()], then
    [if os.path.exists(...) and not st.session_state.get("draft_loaded"):
    load_autosave()], with no handler around either. *)
Definition startup (file : autosave_file) : M unit :=
  init_state ;;;
  fun st =>
    match file with
    | NoFile => (Ok tt, st)
    | FileWith _ =>
        if negb (truthy (st !! "draft_loaded")) then load_autosave file st
        else (Ok tt, st)
    end.

End Draft.




(** A snapshot cut short: the project list and nothing else. *)
Definition truncated_snapshot : list (string * json) := [
  ("projects", JArray [])
]%string.


(** ** The editor pass and the roster commands ([main]) *)

Section Editor.

Variable parse_numeric : string -> num.

(** [if edited_df is not None and not edited_df.empty:
    st.session_state.projects = recalc_projects(edited_df).to_dict("records")];
    [None] stands for an editor that returned nothing. *)
Definition editor_update (edited_df : option DataFrame)
    (projects : list Project) : list Project :=
  match edited_df with
  | Some ((_ :: _) as df) => recalc_projects parse_numeric df
  | Some [] | None => projects
  end.

End Editor.

(** [monitoring_team.append({"name": "", "designation": ""})] *)
Definition add_team_member (monitoring_team : list team_member.t)
    : list team_member.t :=
  monitoring_team ++ [team_member.mk (Text "") (Text "")].

(** [if monitoring_team: monitoring_team.pop()] *)
Definition remove_last_team_member (monitoring_team : list team_member.t)
    : list team_member.t :=
  match monitoring_team with
  | [] => monitoring_team
  | _ :: _ => removelast monitoring_team
  end.


(** ** Inputs of the aggregator *)

(** An entry that holds a float, NaN included. *)
Definition numeric (c : cell) : Prop :=
  match c with Num _ => True | _ => False end.

(** The four entries the aggregator reads are floats. *)
Definition typed (p : Project) : Prop :=
  numeric (approved_cost p) /\ numeric (contract_sum p)
  /\ numeric (disbursed p) /\ numeric (completion p).

(** The limits the editor's columns set: a contract sum of at least 0
    and a disbursed percentage from 0 to 100. *)
Definition within_limits (p : Project) : Prop :=
  well_formed p
  /\ 0 <= number_in (contract_sum p)
  /\ 0 <= number_in (disbursed p) /\ number_in (disbursed p) <= 100.




(** ** Inputs and parts of the report *)

Section ReportParts.

Variable repr_float : num -> string.
Variable float_of_string : string -> option num.

(** An entry [float(...)] accepts: a float, or text the reader reads. *)
Definition floatable (c : cell) : Prop :=
  match c with
  | Num _ => True
  | Text s => is_Some (float_of_string s)
  | NoneC => False
  end.

(** The five entries the project loop converts. *)
Definition convertible (p : Project) : Prop :=
  floatable (approved_cost p) /\ floatable (contract_sum p)
  /\ floatable (disbursed p) /\ floatable (balance p)
  /\ floatable (completion p).

(** The body of the team table: the rows in roster order, numbered
    from 1. *)
Definition team_body (monitoring_team : list team_member.t) : string :=
  String.concat ""
    (imap (fun k m => team_row_html repr_float (S k) m) monitoring_team).

End ReportParts.

(** The blank a team row leaves for the signature. *)
Definition signature_blank : string := "________________".


(** The two decimals a money field of the summary block ends with. *)
Definition cents_digits (cents : Z) : list ascii :=
  [digit ((cents mod 100) / 10)%Z; digit (cents mod 10)%Z].


(** The lines [main] writes around the call of [generate_pdf]. *)
Definition fix_validation : message :=
  st_error "Fix validation errors before generating PDF.".
Definition generation_failed : message :=
  st_error "❌ PDF generation failed. Check the error messages above.".
Definition generation_succeeded : message :=
  st_success "✅ Official PDF generated successfully!".

(** A session that fails validation: no institution name. *)
Definition unnamed_session : Session := {|
  projects := example_projects;
  institution_name := "";
  location := "Ringim";
  intervention_year := "2025";
  inspection_date := datetime.mk 2026 11 3;
  bank_charges_added := false;
  bank_charges_amount := DEFAULT_BANK_CHARGES_AMOUNT;
  monitoring_team := [];
  approval_status := "Pending";
  dme_officer := "";
  approval_comments := "";
  pdf_orientation := "Portrait"
|}.


(** ** Saving the draft and resetting ([autosave], [reset_all]) *)

(** The session keys [autosave] writes and [load_autosave] restores,
    and all the keys [load_autosave] assigns. *)
Definition saved_keys : list string := [
  "projects"; "institution_name"; "location"; "intervention_year";
  "inspection_date"; "bank_charges_added"; "bank_charges_amount";
  "monitoring_team"; "approval_status"; "dme_officer"; "approval_comments";
  "pdf_orientation"
]%string.

Definition assigned_keys : list string := saved_keys ++ ["draft_loaded"%string].

(** What a run of [autosave] leaves behind: the file written with a
    document; nothing touched, because building the dictionary raised
    before the file was opened; or the file opened for writing and
    [json.dump] raising in the middle. *)
Inductive autosave_outcome : Type :=
| Written (draft : json)
| NotWritten (e : exn)
| Broken (e : exn).

(** [st.session_state.key] *)
Definition session_attr (st : Store) (key : string) : result pyvalue :=
  match st !! key with
  | Some v => Ok v
  | None => Raise AttributeError
  end.

(** What [json.dump] writes for a session value; a date is not
    serializable. *)
Definition dump_value (v : pyvalue) : result json :=
  match v with
  | PJson j => Ok j
  | PDate _ => Raise TypeError
  end.

Section Autosave.

(** [strftime("%Y-%m-%d")] and [datetime.now().isoformat()]. *)
Variable strftime_Y_m_d : datetime.date -> string.
Variable saved_at : string.

(** [v.strftime("%Y-%m-%d")] *)
Definition strftime_of (v : pyvalue) : result string :=
  match v with
  | PDate d => Ok (strftime_Y_m_d d)
  | PJson _ => Raise AttributeError
  end.

(** The dictionary literal of [autosave], its values in source order. *)
Definition draft_dict (st : Store) : result (list (string * pyvalue)) :=
  let* projects := session_attr st "projects" in
  let* institution_name := session_attr st "institution_name" in
  let* location := session_attr st "location" in
  let* intervention_year := session_attr st "intervention_year" in
  let* inspection_date := session_attr st "inspection_date" in
  let* inspection_date := strftime_of inspection_date in
  let* bank_charges_added := session_attr st "bank_charges_added" in
  let* bank_charges_amount := session_attr st "bank_charges_amount" in
  let* monitoring_team := session_attr st "monitoring_team" in
  let* approval_status := session_attr st "approval_status" in
  let* dme_officer := session_attr st "dme_officer" in
  let* approval_comments := session_attr st "approval_comments" in
  let* pdf_orientation := session_attr st "pdf_orientation" in
  Ok [("projects", projects);
      ("institution_name", institution_name);
      ("location", location);
      ("intervention_year", intervention_year);
      ("inspection_date", PJson (JString inspection_date));
      ("bank_charges_added", bank_charges_added);
      ("bank_charges_amount", bank_charges_amount);
      ("monitoring_team", monitoring_team);
      ("approval_status", approval_status);
      ("dme_officer", dme_officer);
      ("approval_comments", approval_comments);
      ("pdf_orientation", pdf_orientation);
      ("saved_at", PJson (JString saved_at))]%string.

(** [json.dump(draft, f)] on the members, in order. *)
Fixpoint dump_members (draft : list (string * pyvalue))
    : result (list (string * json)) :=
  match draft with
  | [] => Ok []
  | (key, v) :: rest =>
      let* j := dump_value v in
      let* members := dump_members rest in
      Ok ((key, j) :: members)
  end.

Definition autosave (st : Store) : autosave_outcome :=
  match draft_dict st with
  | Raise e => NotWritten e
  | Ok draft =>
      match dump_members draft with
      | Raise e => Broken e
      | Ok members => Written (JObject members)
      end
  end.

End Autosave.

Section Reset.

Variable fromisoformat_date : string -> option datetime.date.
Variable today : datetime.date.
Variable this_year : string.

(** [reset_all]: every key is deleted, then [init_state()]. *)
Definition reset_all : M unit := fun _ => init_state today this_year ∅.

(** [reset_all] ends in [st.rerun()]: the run stops and the script
    starts again, from [init_state()] and the conditional
    [load_autosave()]. *)
Definition reset_and_rerun (file : autosave_file) : M unit :=
  reset_all ;;; startup fromisoformat_date today this_year file.

End Reset.

(** A store in which a session has run: the defaults, with a name, a
    date and a rider amount entered. *)
Definition example_store : Store :=
  <["institution_name" := PJson (JString "Federal Polytechnic")]>
    (<["bank_charges_amount" := PJson (JNumber (Fin 1000))]>
       (init_store (datetime.mk 2026 11 3) "2026" ∅)).


(** A session computation that assigns no key outside [keys], whether
    it returns or raises. *)
Definition touches_only {A} (keys : list string) (m : M A) : Prop :=
  forall (st : Store) (k : string),
    k ∉ keys -> (m st).2 !! k = st !! k.

(** One step of [init_state]'s loop. *)
Definition fill_default (st : Store) (kv : string * pyvalue) : Store :=
  match st !! kv.1 with
  | Some _ => st
  | None => <[kv.1 := kv.2]> st
  end.


(** The saved keys other than the inspection date, which hold plain
    JSON values. *)
Definition json_keys : list string := [
  "projects"; "institution_name"; "location"; "intervention_year";
  "bank_charges_added"; "bank_charges_amount";
  "monitoring_team"; "approval_status"; "dme_officer"; "approval_comments";
  "pdf_orientation"
]%string.

Definition holds_json (st : Store) (key : string) : Prop :=
  exists j, st !! key = Some (PJson j).


(** ** The approval selector ([main]) *)

Definition approval_options : list string :=
  ["Pending"; "Approved"; "Returned for Correction"; "Rejected"]%string.

(** [options.index(x)]: the first position of [x], [ValueError] when it
    is not in the list. *)
Fixpoint list_index (options : list string) (x : string) : result nat :=
  match options with
  | [] => Raise ValueError
  | o :: rest =>
      if String.eqb o x then Ok O
      else let* i := list_index rest x in Ok (S i)
  end.

(** The [index=] argument of the approval selectbox. *)
Definition approval_index (approval_status : string) : result nat :=
  list_index approval_options approval_status.

(** The characters of a formatted number other than the commas. *)
Definition strip_commas (cs : list ascii) : list ascii :=
  List.filter (fun c => negb (Ascii.eqb c ","%char)) cs.

Definition is_digit (c : ascii) : Prop :=
  exists n, (0 <= n < 10)%Z /\ c = digit n.

(** * Properties *)

(** ** The recomputation pass *)

Section RecalcFacts.

Variable parse_numeric : string -> num.

Abbreviation recalc := (recalc_projects parse_numeric).
Abbreviation row := (recalc_row parse_numeric).
Abbreviation coerce' := (coerce parse_numeric).

Lemma assign_map (set : cell -> Project -> Project) (g : Project -> cell)
    (h : Project -> Project) (df : DataFrame) :
  assign set (map g df) (map h df) = map (fun p => set (g p) (h p)) df.
Proof.
  unfold assign. induction df as [|p df IH]; simpl; [reflexivity|].
  now rewrite IH.
Qed.

Lemma assign_self (set : cell -> Project -> Project) (g : Project -> cell)
    (df : DataFrame) :
  assign set (map g df) df = map (fun p => set (g p) p) df.
Proof. rewrite <- (map_id df) at 2. apply assign_map. Qed.

Lemma assign_range (set : cell -> Project -> Project) (a : Z)
    (df : DataFrame) :
  assign set (map Int (range a (length df))) df
  = imap (fun i p => set (Int (a + Z.of_nat i)) p) df.
Proof.
  unfold assign, range. revert a.
  induction df as [|p df IH]; intros a; simpl; [reflexivity|].
  f_equal. rewrite <- seq_shift, !map_map.
  specialize (IH (a + 1)%Z). rewrite !map_map in IH.
  erewrite map_ext; [rewrite IH|].
  - apply imap_ext. intros i q _. simpl. do 2 f_equal. lia.
  - intros k. simpl. f_equal. lia.
Qed.

Lemma fillna_to_numeric (g : Project -> cell) (df : DataFrame) :
  fillna 0 (to_numeric parse_numeric (map g df))
  = map (fun p => Fin (coerce' (g p))) df.
Proof.
  unfold fillna, to_numeric. rewrite !map_map.
  apply map_ext. intros p. unfold coerce.
  destruct (g p) as [[q|]|s|]; try reflexivity.
  destruct (parse_numeric s); reflexivity.
Qed.

(** The column-wise pass of the source is the row-wise pass. *)
Lemma recalc_projects_rows (df : DataFrame) :
  recalc df = imap row df.
Proof.
  unfold recalc_projects, column, rsub.
  rewrite fillna_to_numeric, !map_map, assign_self.
  rewrite !map_map, fillna_to_numeric, !map_map, assign_map.
  rewrite assign_map, assign_range, imap_fmap.
  apply imap_ext. intros i p _. reflexivity.
Qed.

Lemma recalc_projects_length (df : DataFrame) :
  length (recalc df) = length df.
Proof. rewrite recalc_projects_rows. apply length_imap. Qed.

Lemma recalc_row_again (i : nat) (p : Project) : row i (row i p) = row i p.
Proof. reflexivity. Qed.




Example recalc_projects_example :
  map (fun p => (s_no p, disbursed p, balance p, completion p))
      (recalc_projects example_reader example_frame)
  = [(Int 1, Flt (25 # 2), Flt (100 - (25 # 2)), Flt 0);
     (Int 2, Flt 0, Flt (100 - 0), Flt 0)].
Proof. reflexivity. Qed.


(** C5. [recalc_projects] is idempotent. *)
Theorem recalc_projects_idempotent (df : DataFrame) :
  recalc (recalc df) = recalc df.
Proof.
  rewrite !recalc_projects_rows.
  apply list_eq. intros i.
  rewrite !list_lookup_imap.
  destruct ((df : list Project) !! i) as [p|]; simpl; [|reflexivity].
  now rewrite recalc_row_again.
Qed.

(** C10. [recalc_projects] keeps the rows in place, one for one, and
    in each row leaves the name, the approved cost, the contract sum,
    the quality and compliance ratings, the observations, the document
    status and the recommendation as they were. *)
Theorem recalc_projects_frame (df : DataFrame) :
  length (recalc df) = length df
  /\ Forall2 (fun p0 p =>
                project p = project p0
                /\ approved_cost p = approved_cost p0
                /\ contract_sum p = contract_sum p0
                /\ quality p = quality p0
                /\ compliance p = compliance p0
                /\ other_obs p = other_obs p0
                /\ docs p = docs p0
                /\ recommendation p = recommendation p0)
             df (recalc df).
Proof.
  split; [apply recalc_projects_length|].
  rewrite recalc_projects_rows.
  apply Forall2_same_length_lookup_2; [now rewrite length_imap|].
  intros i p0 p H0 H. rewrite list_lookup_imap, H0 in H.
  injection H as <-. repeat split.
Qed.

End RecalcFacts.

(** ** Adding and removing a project *)

(** C8. Adding a project appends the default project with sequence
    number [len + 1]; removing the last project afterwards gives back the
    list as it was, contents and sequence numbers. *)
Theorem add_then_remove_last_project (ps : list Project) :
  add_project ps
  = ps ++ [set_s_no (Int (Z.of_nat (length ps) + 1)) DEFAULT_PROJECT]
  /\ remove_last_project (add_project ps) = ps.
Proof.
  split; [reflexivity|].
  unfold add_project, remove_last_project.
  destruct (ps ++ _) eqn:E.
  - destruct ps; discriminate.
  - rewrite <- E. apply removelast_last.
Qed.

(** ** Summary statistics *)

Lemma count_completed_spec (ps : list Project) (acc : nat) :
  Forall well_formed ps ->
  count_completed ps acc
  = Ok (acc + count_if (fun p => Qle_bool 100 (number_in (completion p))) ps)%nat.
Proof.
  unfold count_if. revert acc.
  induction ps as [|p ps IH]; intros acc Hwf; simpl.
  - f_equal. simpl. lia.
  - inversion Hwf as [|? ? (_ & _ & _ & Hc) Hrest]; subst.
    destruct (completion p) as [[q|]|s|]; simpl in Hc; try contradiction.
    simpl. rewrite IH by assumption.
    destruct (Qle_bool 100 q); simpl; f_equal; lia.
Qed.

Lemma py_sum_spec (term : Project -> result num) (f : Project -> Q)
    (ps : list Project) (a : Q) :
  Forall (fun p => term p = Ok (Fin (f p))) ps ->
  exists q, py_sum term ps (Fin a) = Ok (Fin q) /\ q == a + sigma f ps.
Proof.
  revert a. induction ps as [|p ps IH]; intros a Hall; simpl.
  - exists a. split; [reflexivity | ring].
  - inversion Hall as [|? ? Hp Hrest]; subst. rewrite Hp. simpl.
    destruct (IH (a + f p) Hrest) as (q & Hq & Heq).
    exists q. split; [exact Hq|]. rewrite Heq. ring.
Qed.

Lemma well_formed_terms (ps : list Project) :
  Forall well_formed ps ->
  Forall (fun p => as_number (approved_cost p)
                   = Ok (Fin (number_in (approved_cost p)))) ps
  /\ Forall (fun p => as_number (contract_sum p)
                      = Ok (Fin (number_in (contract_sum p)))) ps
  /\ Forall (fun p => disbursed_amount p = Ok (Fin (disbursed_share p))) ps.
Proof.
  intros Hwf. repeat split; eapply Forall_impl; try exact Hwf;
    intros p (Ha & Hc & Hd & _); unfold disbursed_amount, disbursed_share;
    destruct (approved_cost p) as [[?|]|?|]; simpl in Ha; try contradiction;
    destruct (contract_sum p) as [[?|]|?|]; simpl in Hc; try contradiction;
    destruct (disbursed p) as [[?|]|?|]; simpl in Hd; try contradiction;
    reflexivity.
Qed.

(** The specification's example, rider disabled: totals 3000, 3000 and
    2500, balance 500, one project completed. *)
Example summary_statistics_example :
  exists s,
    summary_statistics example_projects false 0 = Ok s
    /\ total_projects s = 2%nat /\ completed s = 1%nat
    /\ in_progress s = 1%Z /\ completion_rate s == 50
    /\ num_eq (total_approved s) (Fin 3000)
    /\ num_eq (total_contract s) (Fin 3000)
    /\ num_eq (total_disbursed s) (Fin 2500)
    /\ num_eq (summary_balance s) (Fin 500).
Proof. eexists. split; [reflexivity|]. vm_compute. repeat split. Qed.

(** A text entry where a number is read makes the aggregator raise. *)
Example summary_statistics_type_error :
  summary_statistics example_frame false 0 = Raise TypeError.
Proof. reflexivity. Qed.

(** C1, as the code has it.  On a list whose numeric entries are finite
    numbers the aggregator returns a summary, in which: the number of
    projects is the length of the list; completed counts the projects
    with completion >= 100; in progress is the difference; the completion
    rate is completed / total * 100, and 0 for the empty list; the
    approved, contract and disbursed totals are the sums of the approved
    costs, of the contract sums and of (disbursed / 100) * contract sum,
    each increased by the rider amount when the rider is enabled; and the
    balance is total contract minus total disbursed. *)
Theorem summary_statistics_spec (ps : list Project) (added : bool) (amount : Q) :
  Forall well_formed ps ->
  exists s,
    summary_statistics ps added amount = Ok s
    /\ total_projects s = length ps
    /\ completed s = count_if is_completed ps
    /\ in_progress s = (Z.of_nat (length ps) - Z.of_nat (completed s))%Z
    /\ completion_rate s
       == (if (0 <? length ps)%nat
           then inject_Z (Z.of_nat (completed s))
                / inject_Z (Z.of_nat (length ps)) * 100
           else 0)
    /\ num_eq (total_approved s)
         (Fin (sigma (fun p => number_in (approved_cost p)) ps
               + rider added amount))
    /\ num_eq (total_contract s)
         (Fin (sigma (fun p => number_in (contract_sum p)) ps
               + rider added amount))
    /\ num_eq (total_disbursed s)
         (Fin (sigma disbursed_share ps + rider added amount))
    /\ summary_balance s = nsub (total_contract s) (total_disbursed s).
Proof.
  intros Hwf. unfold summary_statistics.
  rewrite (count_completed_spec ps 0 Hwf). simpl.
  destruct (well_formed_terms ps Hwf) as (Ha & Hc & Hd).
  destruct (py_sum_spec _ _ ps 0 Ha) as (qa & -> & Hqa).
  destruct (py_sum_spec _ _ ps 0 Hc) as (qc & -> & Hqc).
  destruct (py_sum_spec _ _ ps 0 Hd) as (qd & -> & Hqd).
  simpl. destruct added; simpl; eexists; (split; [reflexivity|]); simpl;
    repeat split; try reflexivity;
    try (destruct ps; simpl; reflexivity);
    try (rewrite Hqa; ring); try (rewrite Hqc; ring); try (rewrite Hqd; ring).
Qed.

Lemma summary_statistics_spec_witness :
  exists s,
    summary_statistics example_projects true 215013 = Ok s
    /\ total_projects s = 2%nat
    /\ completed s = 1%nat
    /\ in_progress s = 1%Z
    /\ completion_rate s == 50
    /\ num_eq (total_approved s) (Fin 218013)
    /\ num_eq (total_contract s) (Fin 218013)
    /\ num_eq (total_disbursed s) (Fin 217513)
    /\ num_eq (summary_balance s) (Fin 500).
Proof.
  destruct (summary_statistics_spec example_projects true 215013)
    as (s & Hs & Hn & Hc & Hi & Hr & Ha & Hk & Hd & Hb).
  - repeat constructor.
  - exists s. vm_compute in Hs. injection Hs as <-.
    vm_compute. repeat split; congruence.
Defined.

(** C1 as worded fails: with the rider enabled the three totals are
    not the sums over the projects. *)
Lemma summary_totals_include_rider :
  exists s,
    summary_statistics example_projects true DEFAULT_BANK_CHARGES_AMOUNT = Ok s
    /\ ~ totals_without_rider example_projects s.
Proof.
  eexists. split; [reflexivity|].
  intros (Ha & _). vm_compute in Ha. discriminate.
Qed.





(** ** The rider row at the call of the renderer *)

Lemma count_completed_app (ps qs : list Project) (acc : nat) :
  count_completed (ps ++ qs) acc
  = let* n := count_completed ps acc in count_completed qs n.
Proof.
  revert acc. induction ps as [|p ps IH]; intros acc; simpl; [reflexivity|].
  destruct (ge_100 (completion p)) as [b|e]; simpl; [apply IH | reflexivity].
Qed.

Lemma py_sum_app (term : Project -> result num) (ps qs : list Project)
    (acc : num) :
  py_sum term (ps ++ qs) acc
  = let* x := py_sum term ps acc in py_sum term qs x.
Proof.
  revert acc. induction ps as [|p ps IH]; intros acc; simpl; [reflexivity|].
  destruct (term p) as [x|e]; simpl; [apply IH | reflexivity].
Qed.

Section MainFacts.

Variable strftime_d_b_Y : datetime.date -> string.
Variable LOGO_BASE64 : option string.

(** C4. In a state with the rider enabled that passes validation, the
    renderer is called with the stored projects followed by exactly one
    more row, the bank-charges row: approved cost and contract sum the
    rider amount, disbursed 100, balance 0, completion 100, quality and
    compliance "N/A".  The summary in the same call is the aggregator's
    result on the stored list, so the row is added at the call and not
    by the aggregator, whose project count stays the length of the
    stored list.  The two agree on the money: the approved, contract and
    disbursed sums over the rows handed to the renderer are the totals of
    that summary, and so is the balance. *)
Theorem rider_row_at_call_boundary (st : Session) (approval_date : datetime.date) :
  bank_charges_added st = true ->
  valid st = true ->
  Forall well_formed (projects st) ->
  let amount := bank_charges_amount st in
  let extra := bank_charges_row amount in
  exists summary call table,
    summary_statistics (projects st) true amount = Ok summary
    /\ pdf_request strftime_d_b_Y LOGO_BASE64 st approval_date = Ok (Some call)
    /\ call_projects call = projects st ++ [extra]
    /\ call_summary call = summary
    /\ total_projects summary = length (projects st)
    /\ (approved_cost extra = Flt amount /\ contract_sum extra = Flt amount
        /\ disbursed extra = Flt 100 /\ balance extra = Flt 0
        /\ completion extra = Flt 100
        /\ quality extra = Text "N/A" /\ compliance extra = Text "N/A")
    /\ summary_statistics (call_projects call) false amount = Ok table
    /\ total_approved table = total_approved summary
    /\ total_contract table = total_contract summary
    /\ num_eq (total_disbursed table) (total_disbursed summary)
    /\ num_eq (summary_balance table) (summary_balance summary).
Proof.
  intros Hadded Hvalid Hwf amount extra.
  pose proof (count_completed_spec _ 0 Hwf) as Hn.
  destruct (well_formed_terms _ Hwf) as (Ha & Hc & Hd).
  destruct (py_sum_spec _ _ _ 0 Ha) as (qa & Hqa & _).
  destruct (py_sum_spec _ _ _ 0 Hc) as (qc & Hqc & _).
  destruct (py_sum_spec _ _ _ 0 Hd) as (qd & Hqd & _).
  assert (Hsummary : exists s,
             summary_statistics (projects st) true amount = Ok s
             /\ total_projects s = length (projects st)
             /\ total_approved s = Fin (qa + amount)
             /\ total_contract s = Fin (qc + amount)
             /\ total_disbursed s = Fin (qd + amount)
             /\ summary_balance s = Fin (qc + amount - (qd + amount))).
  { unfold summary_statistics. rewrite Hn, Hqa, Hqc, Hqd. simpl.
    eexists. split; [reflexivity|]. repeat split. }
  destruct Hsummary as (s & Hs & Hlen & Hta & Htc & Htd & Hbal).
  assert (Htable : exists t,
             summary_statistics (projects st ++ [extra]) false amount = Ok t
             /\ total_approved t = Fin (qa + amount)
             /\ total_contract t = Fin (qc + amount)
             /\ total_disbursed t = Fin (qd + 100 / 100 * amount)
             /\ summary_balance t
                = Fin (qc + amount - (qd + 100 / 100 * amount))).
  { unfold summary_statistics.
    rewrite count_completed_app, !py_sum_app, Hn, Hqa, Hqc, Hqd. simpl.
    eexists. split; [reflexivity|]. repeat split. }
  destruct Htable as (t & Ht & Hta' & Htc' & Htd' & Hbal').
  exists s, {|
    call_projects := projects st ++ [extra];
    call_institution_info := institution_info_of strftime_d_b_Y st;
    call_monitoring_team := monitoring_team st;
    call_approval_info := approval_info_of strftime_d_b_Y st approval_date;
    call_summary := s;
    call_orientation := pdf_orientation st;
    call_logo := LOGO_BASE64 |}, t.
  split; [exact Hs|]. split.
  { unfold pdf_request, pdf_projects. rewrite Hadded. fold amount.
    rewrite Hs. simpl. rewrite Hvalid. reflexivity. }
  simpl. split; [reflexivity|]. split; [reflexivity|].
  split; [exact Hlen|]. split; [repeat split|]. split; [exact Ht|].
  rewrite Hta, Htc, Htd, Hbal, Hta', Htc', Htd', Hbal'. simpl.
  repeat split; field.
Qed.

End MainFacts.

Lemma rider_row_at_call_boundary_witness :
  exists summary call,
    pdf_request (fun _ => "03-Nov-2026") None example_session
      (datetime.mk 2026 11 3) = Ok (Some call)
    /\ call_projects call = example_projects ++ [bank_charges_row 215013]
    /\ call_summary call = summary
    /\ num_eq (total_approved summary) (Fin 218013)
    /\ num_eq (summary_balance summary) (Fin 500).
Proof.
  destruct (rider_row_at_call_boundary (fun _ => "03-Nov-2026") None
              example_session (datetime.mk 2026 11 3))
    as (summary & call & table & Hs & Hcall & Hps & Hsum & _).
  - reflexivity.
  - reflexivity.
  - repeat constructor.
  - exists summary, call. split; [exact Hcall|]. split; [exact Hps|].
    split; [exact Hsum|].
    vm_compute in Hs. injection Hs as <-. vm_compute. split; reflexivity.
Defined.

(** ** Failures of the renderer *)

Section RendererFacts.

Variable repr_float : num -> string.
Variable float_of_string : string -> option num.
Variable now : string.
Variable write_pdf : string -> result string.
Variable str_exn : exn -> string.
Variable format_exc : exn -> string.

Abbreviation html_report := (create_html_report repr_float float_of_string now).
Abbreviation pdf :=
  (generate_pdf repr_float float_of_string now write_pdf str_exn format_exc).

Lemma py_float_raises (c : cell) (e : exn) :
  py_float float_of_string c = Raise e -> e = TypeError \/ e = ValueError.
Proof.
  destruct c as [x|s|]; simpl; try discriminate.
  - destruct (float_of_string s); [discriminate|]. intros [= <-]. now right.
  - intros [= <-]. now left.
Qed.

Lemma project_rows_from_raises (ps : list Project) (i : nat) (acc : string)
    (e : exn) :
  project_rows_from repr_float float_of_string i ps acc = Raise e ->
  e = TypeError \/ e = ValueError.
Proof.
  revert i acc. induction ps as [|p ps IH]; intros i acc; simpl;
    [discriminate|].
  destruct (py_float _ (approved_cost p)) eqn:E1; simpl;
    [|intros [= <-]; eapply py_float_raises; eassumption].
  destruct (py_float _ (contract_sum p)) eqn:E2; simpl;
    [|intros [= <-]; eapply py_float_raises; eassumption].
  destruct (py_float _ (disbursed p)) eqn:E3; simpl;
    [|intros [= <-]; eapply py_float_raises; eassumption].
  destruct (py_float _ (balance p)) eqn:E4; simpl;
    [|intros [= <-]; eapply py_float_raises; eassumption].
  destruct (py_float _ (completion p)) eqn:E5; simpl;
    [|intros [= <-]; eapply py_float_raises; eassumption].
  apply IH.
Qed.

(** Malformed input makes the report raise [TypeError] or [ValueError],
    both of which [except Exception] catches. *)
Lemma create_html_report_raises ps info team approval summary orientation
    logo (e : exn) :
  html_report ps info team approval summary orientation logo = Raise e ->
  is_Exception e = true.
Proof.
  unfold create_html_report.
  destruct (project_rows_from _ _ 1 ps "") eqn:E; simpl; [discriminate|].
  intros [= <-]. apply project_rows_from_raises in E.
  destruct E as [-> | ->]; reflexivity.
Qed.

(** C7. When generation throws, be it the report on malformed input
    or the engine with an [Exception] of any kind (a missing engine
    included), [generate_pdf] shows two errors, the diagnostic message
    and the traceback, returns [None] and raises nothing. *)
Theorem generate_pdf_contains_failure ps info team approval summary
    orientation logo (e : exn) :
  html_report ps info team approval summary orientation logo = Raise e
  \/ (exists html,
        html_report ps info team approval summary orientation logo = Ok html
        /\ write_pdf html = Raise e /\ is_Exception e = true) ->
  pdf ps info team approval summary orientation logo
  = (Ok None,
     [st_error ("PDF generation failed: " +:+ str_exn e);
      st_error (format_exc e)]).
Proof.
  intros Hthrows. unfold generate_pdf.
  destruct Hthrows as [Hr | (html & -> & Hw & Hexc)].
  - rewrite Hr. simpl.
    now rewrite (create_html_report_raises _ _ _ _ _ _ _ _ Hr).
  - simpl. rewrite Hw. simpl. now rewrite Hexc.
Qed.

(** Output is returned only when the whole generation went through, and
    then it is the engine's output for the full report. *)
Lemma generate_pdf_no_partial_output ps info team approval summary
    orientation logo (data : string) (shown : list message) :
  pdf ps info team approval summary orientation logo = (Ok (Some data), shown) ->
  shown = []
  /\ exists html,
       html_report ps info team approval summary orientation logo = Ok html
       /\ write_pdf html = Ok data.
Proof.
  unfold generate_pdf.
  destruct (html_report _ _ _ _ _ _ _) as [html|e]; simpl.
  - destruct (write_pdf html) as [out|e] eqn:Hw; simpl.
    + intros [= <- <-]. split; [reflexivity|]. exists html. now split.
    + destruct (is_Exception e); discriminate.
  - destruct (is_Exception e); discriminate.
Qed.

End RendererFacts.

Lemma generate_pdf_contains_failure_witness :
  generate_pdf (fun _ => "0.0") (fun _ => None) "2026-11-03 09:00:00"
    (fun _ => Raise NameError)
    (fun _ => "float() argument must be a string or a real number")
    (fun _ => "Traceback (most recent call last): ...")
    [broken_project] sample_institution [] sample_approval sample_summary
    "Landscape" None
  = (Ok None,
     [st_error "PDF generation failed: float() argument must be a string or a real number";
      st_error "Traceback (most recent call last): ..."]).
Proof.
  apply (generate_pdf_contains_failure (fun _ => "0.0") (fun _ => None)
           "2026-11-03 09:00:00" (fun _ => Raise NameError)
           (fun _ => "float() argument must be a string or a real number")
           (fun _ => "Traceback (most recent call last): ...")
           [broken_project] sample_institution [] sample_approval
           sample_summary "Landscape" None TypeError).
  left. reflexivity.
Defined.

(** With no engine installed the name [HTML] is unbound: the report is
    built, the call raises [NameError], and it is contained all the
    same. *)
Example generate_pdf_without_engine :
  generate_pdf (fun _ => "0.0") (fun _ => None) "2026-11-03 09:00:00"
    (fun _ => Raise NameError) (fun _ => "name 'HTML' is not defined")
    (fun _ => "Traceback (most recent call last): ...")
    example_projects sample_institution [] sample_approval sample_summary
    "Landscape" None
  = (Ok None,
     [st_error "PDF generation failed: name 'HTML' is not defined";
      st_error "Traceback (most recent call last): ..."]).
Proof. reflexivity. Qed.

Section ButtonFacts.

Variable repr_float : num -> string.
Variable float_of_string : string -> option num.
Variable now : string.
Variable write_pdf : string -> result string.
Variable str_exn : exn -> string.
Variable format_exc : exn -> string.
Variable strftime_d_b_Y : datetime.date -> string.
Variable LOGO_BASE64 : option string.

(** After a contained failure [main] goes on: it adds its own error
    line under the two of [generate_pdf] and returns. *)
Lemma pdf_button_after_failure (st : Session) (approval_date : datetime.date)
    (call : RenderCall) (shown : list message) :
  pdf_request strftime_d_b_Y LOGO_BASE64 st approval_date = Ok (Some call) ->
  generate_pdf repr_float float_of_string now write_pdf str_exn format_exc
    (call_projects call) (call_institution_info call)
    (call_monitoring_team call) (call_approval_info call)
    (call_summary call) (call_orientation call) (call_logo call)
  = (Ok None, shown) ->
  pdf_button repr_float float_of_string now write_pdf str_exn format_exc
    strftime_d_b_Y LOGO_BASE64 st approval_date
  = Ok (shown ++ [st_error "❌ PDF generation failed. Check the error messages above."]).
Proof.
  intros Hrequest Hpdf. unfold pdf_button. rewrite Hrequest. simpl.
  now rewrite Hpdf.
Qed.

End ButtonFacts.

(** ** Formatting *)

Lemma round_half_even_comp (q q' : Q) :
  q == q' -> round_half_even q = round_half_even q'.
Proof.
  intros E. unfold round_half_even.
  rewrite (Qfloor_comp _ _ E).
  assert (E' : q - inject_Z (Qfloor q') == q' - inject_Z (Qfloor q'))
    by now rewrite E.
  now rewrite E'.
Qed.

(** The rounded value is within one half of the number. *)
Lemma round_half_even_near (q : Q) :
  Qabs (inject_Z (round_half_even q) - q) <= 1 # 2.
Proof.
  unfold round_half_even.
  pose proof (Qfloor_le q) as Hlo. pose proof (Qlt_floor q) as Hhi.
  rewrite inject_Z_plus in Hhi. change (inject_Z 1) with 1 in Hhi.
  assert (Hup : inject_Z (Qfloor q + 1) == inject_Z (Qfloor q) + 1)
    by (rewrite inject_Z_plus; reflexivity).
  destruct (Qcompare_spec (q - inject_Z (Qfloor q)) (1 # 2)) as [E|L|G].
  - destruct (Z.even (Qfloor q)); apply Qabs_case; intros _;
      rewrite ?Hup; lra.
  - apply Qabs_case; intros _; lra.
  - rewrite Hup. apply Qabs_case; intros _; lra.
Qed.

Lemma commas_rev_3 (d : ascii) (rds : list ascii) :
  commas_rev 3 (d :: rds) = ","%char :: commas_rev 0 (d :: rds).
Proof. reflexivity. Qed.

Lemma commas_rev_short (k : nat) (rds : list ascii) :
  (k + length rds <= 3)%nat -> commas_rev k rds = rds.
Proof.
  revert k. induction rds as [|d rds IH]; intros k Hk; simpl in *;
    [reflexivity|].
  destruct k as [|[|[|[|k]]]]; try lia; f_equal; apply IH; simpl; lia.
Qed.

(** Up to three digits stay as they are. *)
Lemma group3_short (ds : list ascii) :
  (length ds <= 3)%nat -> group3 ds = ds.
Proof.
  intros H. unfold group3.
  rewrite commas_rev_short by (rewrite length_rev; simpl; lia).
  apply rev_involutive.
Qed.

(** Each further group of three digits is set off by a comma. *)
Lemma group3_thousands (ds : list ascii) (a b c : ascii) :
  ds <> [] ->
  group3 (ds ++ [a; b; c]) = group3 ds ++ ","%char :: [a; b; c].
Proof.
  intros Hne. unfold group3. rewrite rev_app_distr. simpl.
  destruct (rev ds) as [|d rds] eqn:E.
  - apply (f_equal (@rev ascii)) in E. rewrite rev_involutive in E.
    now subst.
  - rewrite commas_rev_3. simpl. rewrite <- !app_assoc. reflexivity.
Qed.

(** ** The rendered project table *)

Lemma append_cons (c : ascii) (s t : string) :
  String c s +:+ t = String c (s +:+ t).
Proof. reflexivity. Qed.

Lemma append_nil_l (s : string) : "" +:+ s = s.
Proof. reflexivity. Qed.

Lemma append_nil_r (s : string) : s +:+ "" = s.
Proof.
  induction s as [|c s IH]; [reflexivity|]. now rewrite append_cons, IH.
Qed.

Lemma append_assoc (a b c : string) : (a +:+ b) +:+ c = a +:+ (b +:+ c).
Proof.
  induction a as [|x a IH]; [reflexivity|]. now rewrite !append_cons, IH.
Qed.

Lemma concat_cons (x : string) (l : list string) :
  String.concat "" (x :: l) = x +:+ String.concat "" l.
Proof. destruct l; simpl; [symmetry; apply append_nil_r | reflexivity]. Qed.

Lemma occurs_trans (a b c : string) : occurs a b -> occurs b c -> occurs a c.
Proof.
  intros (p1 & q1 & ->) (p2 & q2 & ->).
  exists (p2 +:+ p1), (q1 +:+ q2). now rewrite !append_assoc.
Qed.

Lemma occurs_prefix (a b : string) : occurs a (a +:+ b).
Proof. now exists ""%string, b. Qed.

Lemma occurs_suffix (a b : string) : occurs b (a +:+ b).
Proof. exists a, ""%string. now rewrite append_nil_r. Qed.

(** A piece of a concatenation occurs in it. *)
Lemma occurs_concat (x : string) (l : list string) :
  In x l -> occurs x (String.concat "" l).
Proof.
  induction l as [|y l IH]; intros Hin; [contradiction|].
  rewrite concat_cons. destruct Hin as [-> | Hin].
  - apply occurs_prefix.
  - eapply occurs_trans; [apply IH, Hin | apply occurs_suffix].
Qed.

Ltac piece :=
  apply occurs_concat; simpl;
  repeat first [left; reflexivity | right].

Section TableFacts.

Variable repr_float : num -> string.
Variable float_of_string : string -> option num.
Variable now : string.

Abbreviation html_report := (create_html_report repr_float float_of_string now).
Abbreviation row_html := (project_row_html repr_float).
Abbreviation str' := (str repr_float).

Abbreviation shows := (shows repr_float).

Lemma row_shows (i : nat) (p : Project) (a c d b k : num) :
  shows p a c d b k (row_html i p a c d b k).
Proof. unfold shows, project_row_html. repeat split; piece. Qed.

Lemma renderable_floats (p : Project) :
  renderable p ->
  py_float float_of_string (approved_cost p)
  = Ok (Fin (number_in (approved_cost p)))
  /\ py_float float_of_string (contract_sum p)
     = Ok (Fin (number_in (contract_sum p)))
  /\ py_float float_of_string (disbursed p)
     = Ok (Fin (number_in (disbursed p)))
  /\ py_float float_of_string (balance p)
     = Ok (Fin (number_in (balance p)))
  /\ py_float float_of_string (completion p)
     = Ok (Fin (number_in (completion p))).
Proof.
  intros (_ & _ & _ & _ & _ & _ & Ha & Hc & Hd & Hb & Hk).
  destruct (approved_cost p) as [[?|]|?|]; try contradiction.
  destruct (contract_sum p) as [[?|]|?|]; try contradiction.
  destruct (disbursed p) as [[?|]|?|]; try contradiction.
  destruct (balance p) as [[?|]|?|]; try contradiction.
  destruct (completion p) as [[?|]|?|]; try contradiction.
  repeat split.
Qed.

Lemma renderable_texts (p : Project) (html : string) :
  renderable p ->
  shows p (Fin (number_in (approved_cost p))) (Fin (number_in (contract_sum p)))
    (Fin (number_in (disbursed p))) (Fin (number_in (balance p)))
    (Fin (number_in (completion p))) html ->
  shown_verbatim p html.
Proof.
  intros (H1 & H2 & H3 & H4 & H5 & H6 & _). unfold shows, shown_verbatim.
  destruct (project p); try contradiction.
  destruct (quality p); try contradiction.
  destruct (compliance p); try contradiction.
  destruct (other_obs p); try contradiction.
  destruct (docs p); try contradiction.
  destruct (recommendation p); try contradiction.
  simpl. intros H. exact H.
Qed.

Lemma row_of_shows (i : nat) (p : Project) :
  renderable p -> shown_verbatim p (row_of repr_float i p).
Proof.
  intros Hp. apply renderable_texts; [exact Hp|].
  unfold row_of. apply row_shows.
Qed.

(** The loop builds the table body, after what was accumulated. *)
Lemma project_rows_from_renderable (ps : list Project) :
  Forall renderable ps ->
  forall (i : nat) (acc : string),
  project_rows_from repr_float float_of_string i ps acc
  = Ok (acc +:+ String.concat ""
                  (imap (fun k p => row_of repr_float (i + k) p) ps)).
Proof.
  induction 1 as [|p ps Hp Hps IH]; intros i acc.
  - simpl. now rewrite append_nil_r.
  - cbn [project_rows_from imap].
    destruct (renderable_floats p Hp) as (-> & -> & -> & -> & ->).
    cbn [rbind]. rewrite IH, concat_cons, append_assoc, Nat.add_0_r.
    do 4 f_equal. apply imap_ext. intros k q _.
    unfold compose. f_equal. lia.
Qed.

Lemma page_shows_rows (page_size logo_html project_rows team_rows : string)
    (info : institution_info.t) (summary : Summary)
    (approval : approval_info.t) :
  occurs project_rows
    (page_html page_size logo_html project_rows team_rows now info summary
       approval).
Proof. unfold page_html. piece. Qed.

End TableFacts.

Lemma digit_value_digit (n : Z) :
  (0 <= n < 10)%Z -> digit_value (digit n) = n.
Proof.
  intros H. unfold digit_value, digit.
  rewrite nat_ascii_embedding by lia. lia.
Qed.

Lemma value_of_from (ds : list ascii) (v : Z) :
  fold_left (fun v c => (10 * v + digit_value c)%Z) ds v
  = (v * 10 ^ Z.of_nat (length ds) + value_of ds)%Z.
Proof.
  unfold value_of. revert v.
  induction ds as [|d ds IH]; intros v.
  - simpl. lia.
  - cbn [fold_left length]. rewrite IH, (IH (10 * 0 + digit_value d)%Z).
    rewrite Nat2Z.inj_succ, Z.pow_succ_r by lia. ring.
Qed.

Lemma value_of_cons (d : ascii) (ds : list ascii) :
  value_of (d :: ds)
  = (digit_value d * 10 ^ Z.of_nat (length ds) + value_of ds)%Z.
Proof.
  unfold value_of at 1. cbn [fold_left]. rewrite value_of_from. ring.
Qed.

Lemma digits_upto_value (fuel : nat) (n : Z) (acc : list ascii) :
  (0 <= n < 2 ^ Z.of_nat fuel)%Z ->
  value_of (digits_upto fuel n acc)
  = (n * 10 ^ Z.of_nat (length acc) + value_of acc)%Z.
Proof.
  revert n acc. induction fuel as [|fuel IH]; intros n acc Hn.
  - simpl in *. assert (n = 0)%Z by lia. subst. lia.
  - cbn [digits_upto]. destruct (n <? 10)%Z eqn:E.
    + apply Z.ltb_lt in E. rewrite value_of_cons, digit_value_digit by lia.
      reflexivity.
    + apply Z.ltb_ge in E.
      rewrite Nat2Z.inj_succ, Z.pow_succ_r in Hn by lia.
      rewrite IH by (split; [apply Z.div_pos; lia |
                             apply Z.div_lt_upper_bound; lia]).
      rewrite value_of_cons, digit_value_digit
        by (apply Z.mod_pos_bound; lia).
      cbn [length]. rewrite Nat2Z.inj_succ, Z.pow_succ_r by lia.
      pose proof (Z.div_mod n 10 ltac:(lia)) as Hdm.
      set (k := (10 ^ Z.of_nat (length acc))%Z).
      rewrite Hdm at 3. ring.
Qed.

(** The digits printed denote the number. *)
Lemma digits_value (n : Z) : (0 <= n)%Z -> value_of (digits n) = n.
Proof.
  intros Hn. unfold digits. rewrite digits_upto_value.
  - simpl. unfold value_of. simpl. lia.
  - split; [exact Hn|].
    destruct (Z.eq_dec n 0%Z) as [->|Hne]; [simpl; lia|].
    rewrite Nat2Z.inj_succ, Z2Nat.id by apply Z.log2_nonneg.
    apply Z.log2_spec. lia.
Qed.

Lemma round_half_even_nonneg (q : Q) :
  0 <= q -> (0 <= round_half_even q)%Z.
Proof.
  intros Hq. unfold round_half_even.
  assert (Hf : (0 <= Qfloor q)%Z)
    by (change 0%Z with (Qfloor 0); now apply Qfloor_resp_le).
  destruct (Qcompare _ _); [destruct (Z.even _)| |]; lia.
Qed.

(** The digits of a formatted amount denote the rounded amount. *)
Lemma amount_digits_value (q : Q) :
  value_of (digits (round_half_even (Qabs q))) = round_half_even (Qabs q).
Proof. apply digits_value, round_half_even_nonneg, Qabs_nonneg. Qed.

Lemma currency_0_shape (q : Q) :
  currency 0 (Fin q)
  = "₦" +:+ string_of_list_ascii
              (sign_of q ++ group3 (digits (round_half_even (Qabs q)))).
Proof.
  unfold currency, format_f.
  change (10 ^ Z.of_nat 0)%Z with 1%Z.
  rewrite Z.div_1_r, app_nil_r.
  rewrite (round_half_even_comp (Qabs q * inject_Z 1) (Qabs q))
    by (change (inject_Z 1) with 1; ring).
  reflexivity.
Qed.

Lemma percent_shape (q : Q) :
  let tenths := round_half_even (Qabs q * 10) in
  percent (Fin q)
  = string_of_list_ascii
      (sign_of q ++ digits (tenths / 10)
       ++ ["."%char; digit (tenths mod 10)]) +:+ "%".
Proof.
  intros tenths. unfold percent, format_f.
  change (10 ^ Z.of_nat 1)%Z with 10%Z. change (inject_Z 10) with 10.
  fold tenths.
  simpl fixed_digits. rewrite Z.mod_mod by lia. reflexivity.
Qed.

Section TableRendering.

Variable repr_float : num -> string.
Variable float_of_string : string -> option num.
Variable now : string.

(** C9. For projects with text in the text columns and finite numbers
    in the numeric ones, the report is produced and contains the table
    body: one row per project, in list order.  The row of a project
    shows its name, ratings, observations, document status and
    recommendation exactly as entered, its approved cost and contract sum
    as the currency glyph followed by the amount rounded to a whole
    number (no decimal point) with a comma before each group of three
    digits, and its disbursed, balance and completion with one digit
    after the decimal point followed by a percent sign.  The digits are
    those of the rounded amount, which is within one half of the amount;
    the amount 1234567.0 comes out as "₦1,234,567". *)
Theorem rendered_project_table (ps : list Project) (info : institution_info.t)
    (team : list team_member.t) (approval : approval_info.t)
    (summary : Summary) (orientation : string) (logo : option string) :
  Forall renderable ps ->
  (exists page,
      create_html_report repr_float float_of_string now ps info team approval
        summary orientation logo = Ok page
      /\ occurs (table_body repr_float ps) page
      /\ Forall (fun p => forall i : nat,
                   shown_verbatim p (row_of repr_float i p)) ps)
  /\ (forall q : Q,
        currency 0 (Fin q)
        = "₦" +:+ string_of_list_ascii
                    (sign_of q ++ group3 (digits (round_half_even (Qabs q)))))
  /\ (forall ds : list ascii, (length ds <= 3)%nat -> group3 ds = ds)
  /\ (forall (ds : list ascii) (a b c : ascii),
        ds <> [] ->
        group3 (ds ++ [a; b; c]) = group3 ds ++ ","%char :: [a; b; c])
  /\ (forall q : Q,
        let tenths := round_half_even (Qabs q * 10) in
        percent (Fin q)
        = string_of_list_ascii
            (sign_of q ++ digits (tenths / 10)
             ++ ["."%char; digit (tenths mod 10)]) +:+ "%")
  /\ (forall q : Q,
        value_of (digits (round_half_even (Qabs q)))
        = round_half_even (Qabs q))
  /\ (forall q : Q, Qabs (inject_Z (round_half_even q) - q) <= 1 # 2)
  /\ currency 0 (Fin 1234567) = "₦1,234,567".
Proof.
  intros Hps. split; [|repeat split].
  - unfold create_html_report.
    rewrite (project_rows_from_renderable repr_float float_of_string ps Hps).
    cbn [rbind]. eexists. split; [reflexivity|]. split.
    + rewrite append_nil_l. apply page_shows_rows.
    + eapply Forall_impl; [exact Hps|]. intros p Hp i.
      now apply row_of_shows.
  - apply currency_0_shape.
  - apply group3_short.
  - apply group3_thousands.
  - apply percent_shape.
  - apply amount_digits_value.
  - apply round_half_even_near.
Qed.

End TableRendering.

Lemma rendered_project_table_witness :
  exists page,
    create_html_report (fun _ => "0.0") (fun _ => None) "2026-11-03 09:00:00"
      example_projects sample_institution [] sample_approval sample_summary
      "Landscape" None = Ok page
    /\ occurs (table_body (fun _ => "0.0") example_projects) page
    /\ Forall (fun p => occurs (text_in (project p))
                          (row_of (fun _ => "0.0") 1 p)
                        /\ occurs (currency 0 (Fin (number_in (approved_cost p))))
                             (row_of (fun _ => "0.0") 1 p))
              example_projects.
Proof.
  destruct (rendered_project_table (fun _ => "0.0") (fun _ => None)
              "2026-11-03 09:00:00" example_projects sample_institution []
              sample_approval sample_summary "Landscape" None)
    as ((page & Hpage & Hbody & Hall) & _).
  - repeat constructor.
  - exists page. split; [exact Hpage|]. split; [exact Hbody|].
    eapply Forall_impl; [exact Hall|].
    intros p Hp. destruct (Hp 1%nat) as (Hname & _ & _ & _ & _ & _ & Hcost & _).
    split; assumption.
Defined.

(** ** Loading the draft *)

Section DraftFacts.

Variable fromisoformat_date : string -> option datetime.date.
Variable today : datetime.date.
Variable this_year : string.

Abbreviation load := (load_autosave fromisoformat_date).


Lemma load_autosave_not_object (j : json) (st : Store) :
  match j with JObject _ => False | _ => True end ->
  load (FileWith (Some j)) st = (Raise TypeError, st).
Proof. destruct j; intros H; try contradiction; reflexivity. Qed.

Lemma load_autosave_no_projects (members : list (string * json)) (st : Store) :
  dict_of members !! "projects" = None ->
  load (FileWith (Some (JObject members))) st
  = (Raise (KeyError "projects"), st).
Proof.
  intros H. unfold load_autosave, bind, lift, load_key, getitem.
  now rewrite H.
Qed.





End DraftFacts.




(** * Further properties *)

(** ** The project list across reruns *)

Lemma remove_last_project_snoc (ps : list Project) (p : Project) :
  remove_last_project (ps ++ [p]) = ps.
Proof.
  unfold remove_last_project. destruct (ps ++ [p]) eqn:E.
  - destruct ps; discriminate.
  - rewrite <- E. apply removelast_last.
Qed.

Section RerunFacts.

Variable parse_numeric : string -> num.

Abbreviation recalc := (recalc_projects parse_numeric).
Abbreviation row := (recalc_row parse_numeric).

Lemma recalc_snoc (ps : list Project) (p : Project) :
  recalc (ps ++ [p]) = recalc ps ++ [row (length ps) p].
Proof.
  rewrite !recalc_projects_rows, imap_app. simpl.
  now rewrite Nat.add_0_r.
Qed.

Lemma recalc_twice (df : DataFrame) : recalc (recalc df) = recalc df.
Proof.
  rewrite !recalc_projects_rows. apply list_eq. intros i.
  rewrite !list_lookup_imap.
  now destruct ((df : list Project) !! i).
Qed.

(** X1. On a list that the recomputation leaves as it is, adding a
    project gives a list that the recomputation leaves as it is: the
    default project already has balance 100 - 0 and the next sequence
    number, so the pass of the following rerun changes nothing. *)
Theorem add_project_stays_recalculated (ps : list Project) :
  recalc ps = ps -> recalc (add_project ps) = add_project ps.
Proof.
  intros Hfix. unfold add_project. rewrite recalc_snoc, Hfix.
  f_equal. f_equal. unfold recalc_row, set_s_no, DEFAULT_PROJECT, Int. simpl.
  f_equal. now rewrite Z.add_comm.
Qed.

(** X2. Removing the last project of a list that the recomputation
    leaves as it is gives such a list again: the sequence numbers of the
    remaining projects are still 1..N-1 and need no renumbering. *)
Theorem remove_last_project_stays_recalculated (ps : list Project) :
  recalc ps = ps ->
  recalc (remove_last_project ps) = remove_last_project ps.
Proof.
  destruct ps as [|p0 ps0] using rev_ind; [reflexivity|].
  intros Hfix. rewrite remove_last_project_snoc.
  rewrite recalc_snoc in Hfix.
  apply List.app_inj_tail in Hfix. exact (proj1 Hfix).
Qed.

(** X3. The editor pass never empties the stored list.  An editor
    that returns nothing or an empty frame leaves the list as it was; a
    frame with rows replaces it: what is stored is the edited frame row
    for row, each row recalculated in place, so it has as many rows as
    the frame and is left as it is by a further recalculation. *)
Theorem editor_update_keeps_projects (edited_df : option DataFrame)
    (ps : list Project) :
  ps <> [] ->
  editor_update parse_numeric edited_df ps <> []
  /\ (edited_df = None \/ edited_df = Some [] ->
      editor_update parse_numeric edited_df ps = ps)
  /\ (forall df, edited_df = Some df -> df <> [] ->
        editor_update parse_numeric edited_df ps = imap row df
        /\ length (editor_update parse_numeric edited_df ps) = length df
        /\ recalc (editor_update parse_numeric edited_df ps)
           = editor_update parse_numeric edited_df ps).
Proof.
  intros Hne. destruct edited_df as [[|p df]|]; unfold editor_update.
  - split; [exact Hne|]. split; [reflexivity|].
    intros df E Hdf. injection E as <-. now contradiction Hdf.
  - split; [|split].
    + intros Hnil. apply (f_equal (@length Project)) in Hnil.
      rewrite recalc_projects_length in Hnil. discriminate Hnil.
    + intros [E|E]; discriminate E.
    + intros df' E _. injection E as <-.
      split; [apply recalc_projects_rows|].
      split; [apply recalc_projects_length | apply recalc_twice].
  - split; [exact Hne|]. split; [reflexivity|].
    intros df E. discriminate E.
Qed.

End RerunFacts.

Lemma add_project_stays_recalculated_witness :
  recalc_projects example_reader (add_project example_projects)
  = add_project example_projects.
Proof.
  apply (add_project_stays_recalculated example_reader example_projects).
  reflexivity.
Defined.

Lemma remove_last_project_stays_recalculated_witness :
  recalc_projects example_reader (remove_last_project example_projects)
  = remove_last_project example_projects.
Proof.
  apply (remove_last_project_stays_recalculated example_reader
           example_projects).
  reflexivity.
Defined.

Lemma editor_update_keeps_projects_witness :
  editor_update example_reader (Some []) example_projects = example_projects
  /\ editor_update example_reader (Some example_frame) example_projects <> []
  /\ length (editor_update example_reader (Some example_frame)
               example_projects)
     = length example_frame.
Proof.
  destruct (editor_update_keeps_projects example_reader (Some [])
              example_projects) as (_ & Hkeep & _); [discriminate|].
  destruct (editor_update_keeps_projects example_reader (Some example_frame)
              example_projects) as (Hne & _ & Hstore); [discriminate|].
  split; [apply Hkeep; now right|]. split; [exact Hne|].
  destruct (Hstore example_frame eq_refl) as (_ & Hlen & _);
    [discriminate | exact Hlen].
Defined.

(** X4. Removing the last team member of an empty roster leaves it
    empty and nothing fails; on any roster, adding a member (with empty
    name and designation) and then removing the last one gives the roster
    back, and a removal from a roster with members shortens it by one. *)
Theorem team_roster_commands (team : list team_member.t) :
  remove_last_team_member [] = []
  /\ remove_last_team_member (add_team_member team) = team
  /\ length (remove_last_team_member team) = pred (length team).
Proof.
  split; [reflexivity|]. split.
  - unfold add_team_member, remove_last_team_member.
    destruct (team ++ _) eqn:E.
    + destruct team; discriminate.
    + rewrite <- E. apply removelast_last.
  - unfold remove_last_team_member. destruct team as [|m team]; [reflexivity|].
    now rewrite removelast_firstn_len, length_take_le by lia.
Qed.


(** ** The aggregator on any list *)

Lemma as_number_ok (c : cell) : is_Ok (as_number c) <-> numeric c.
Proof. destruct c; simpl; tauto. Qed.


Lemma disbursed_amount_ok (p : Project) :
  is_Ok (disbursed_amount p)
  <-> numeric (disbursed p) /\ numeric (contract_sum p).
Proof.
  unfold disbursed_amount.
  destruct (disbursed p), (contract_sum p); simpl; tauto.
Qed.


Lemma count_completed_ok (ps : list Project) (acc : nat) :
  is_Ok (count_completed ps acc)
  <-> Forall (fun p => numeric (completion p)) ps.
Proof.
  revert acc. induction ps as [|p ps IH]; intros acc; simpl.
  - split; [constructor | exact (fun _ => I)].
  - rewrite Forall_cons. unfold ge_100.
    destruct (completion p); simpl; try rewrite IH; tauto.
Qed.


Lemma count_completed_bounds (ps : list Project) (acc n : nat) :
  count_completed ps acc = Ok n -> (acc <= n <= acc + length ps)%nat.
Proof.
  revert acc. induction ps as [|p ps IH]; intros acc; simpl.
  - intros [= <-]. lia.
  - unfold ge_100. destruct (completion p) as [x| |]; simpl; try discriminate.
    intros H. apply IH in H. destruct (nge x 100); lia.
Qed.

Lemma py_sum_ok (term : Project -> result num) (ps : list Project)
    (acc : num) :
  is_Ok (py_sum term ps acc) <-> Forall (fun p => is_Ok (term p)) ps.
Proof.
  revert acc. induction ps as [|p ps IH]; intros acc; simpl.
  - split; [constructor | exact (fun _ => I)].
  - rewrite Forall_cons. destruct (term p); simpl; try rewrite IH; tauto.
Qed.


Lemma is_Ok_bind {A B} (m : result A) (k : A -> result B) :
  is_Ok (rbind m k) <-> exists a, m = Ok a /\ is_Ok (k a).
Proof.
  destruct m; simpl; split.
  - eauto.
  - now intros (? & [= <-] & ?).
  - contradiction.
  - now intros (? & ? & _).
Qed.

Lemma is_Ok_ex {A} (r : result A) : is_Ok r <-> exists a, r = Ok a.
Proof.
  destruct r; simpl; split; eauto; try contradiction. now intros [? ?].
Qed.

Lemma summary_statistics_ok (ps : list Project) (added : bool) (amount : Q) :
  is_Ok (summary_statistics ps added amount) <-> Forall typed ps.
Proof.
  assert (Hsplit : Forall typed ps
            <-> Forall (fun p => numeric (completion p)) ps
                /\ Forall (fun p => is_Ok (as_number (approved_cost p))) ps
                /\ Forall (fun p => is_Ok (as_number (contract_sum p))) ps
                /\ Forall (fun p => is_Ok (disbursed_amount p)) ps).
  { unfold typed. rewrite !Forall_forall. split.
    - intros H. repeat split; intros p Hp; destruct (H p Hp) as (?&?&?&?);
        rewrite ?as_number_ok, ?disbursed_amount_ok; auto.
    - intros (Hk & Ha & Hc & Hd) p Hp.
      specialize (Hk p Hp). specialize (Ha p Hp). specialize (Hc p Hp).
      specialize (Hd p Hp).
      rewrite as_number_ok in Ha, Hc. rewrite disbursed_amount_ok in Hd.
      tauto. }
  rewrite Hsplit. clear Hsplit.
  rewrite <- (count_completed_ok ps 0).
  rewrite <- (py_sum_ok (fun p => as_number (approved_cost p)) ps (Fin 0)).
  rewrite <- (py_sum_ok (fun p => as_number (contract_sum p)) ps (Fin 0)).
  rewrite <- (py_sum_ok disbursed_amount ps (Fin 0)).
  unfold summary_statistics.
  destruct (count_completed ps 0); simpl; [|tauto].
  destruct (py_sum _ ps (Fin 0)); simpl; [|tauto].
  destruct (py_sum _ ps (Fin 0)); simpl; [|tauto].
  destruct (py_sum disbursed_amount ps (Fin 0)); simpl; [|tauto].
  destruct added; simpl; tauto.
Qed.


(** X6. In every summary the aggregator returns, the counts add up:
    completed is at most the number of projects, in progress is their
    difference and is not negative, and the completion rate lies between
    0 and 100. *)
Theorem summary_counts_add_up (ps : list Project) (added : bool)
    (amount : Q) (s : Summary) :
  summary_statistics ps added amount = Ok s ->
  (completed s <= total_projects s)%nat
  /\ (in_progress s = Z.of_nat (total_projects s - completed s))%Z
  /\ (Z.of_nat (completed s) + in_progress s = Z.of_nat (total_projects s))%Z
  /\ 0 <= completion_rate s /\ completion_rate s <= 100.
Proof.
  unfold summary_statistics.
  destruct (count_completed ps 0) as [n|] eqn:E0; simpl; [|discriminate].
  apply count_completed_bounds in E0.
  destruct (py_sum _ ps (Fin 0)); simpl; [|discriminate].
  destruct (py_sum _ ps (Fin 0)); simpl; [|discriminate].
  destruct (py_sum disbursed_amount ps (Fin 0)); simpl; [|discriminate].
  assert (Hrate : 0 <= match length ps with
                       | O => 0
                       | S _ => inject_Z (Z.of_nat n)
                                / inject_Z (Z.of_nat (length ps)) * 100
                       end
                  /\ match length ps with
                     | O => 0
                     | S _ => inject_Z (Z.of_nat n)
                              / inject_Z (Z.of_nat (length ps)) * 100
                     end <= 100).
  { destruct (length ps) as [|m] eqn:El; [split; lra|].
    set (t := inject_Z (Z.of_nat (S m))).
    set (c := inject_Z (Z.of_nat n)).
    assert (Ht : 0 < t) by (unfold t; rewrite <- (Zlt_Qlt 0); lia).
    assert (Hc0 : 0 <= c) by (unfold c; rewrite <- (Zle_Qle 0); lia).
    assert (Hct : c <= t) by (unfold c, t; rewrite <- Zle_Qle; lia).
    assert (H0 : 0 <= c / t)
      by (apply Qle_shift_div_l; [exact Ht | lra]).
    assert (H1 : c / t <= 1)
      by (apply Qle_shift_div_r; [exact Ht | lra]).
    split; lra. }
  destruct added; intros [= <-]; simpl; repeat split; try lia;
    try apply Hrate.
Qed.

Lemma summary_counts_add_up_witness :
  exists s,
    summary_statistics example_projects true 215013 = Ok s
    /\ (completed s <= total_projects s)%nat
    /\ 0 <= completion_rate s /\ completion_rate s <= 100.
Proof.
  eexists. split; [reflexivity|].
  destruct (summary_counts_add_up example_projects true 215013 _ eq_refl)
    as (H1 & _ & _ & H2 & H3).
  auto.
Defined.


Lemma sigma_le (f g : Project -> Q) (ps : list Project) :
  Forall (fun p => f p <= g p) ps -> sigma f ps <= sigma g ps.
Proof.
  induction 1 as [|p ps Hp _ IH]; simpl; [lra|]. lra.
Qed.

Lemma disbursed_share_le (p : Project) :
  within_limits p -> disbursed_share p <= number_in (contract_sum p).
Proof.
  intros (_ & Hc & Hd0 & Hd1). unfold disbursed_share.
  set (c := number_in (contract_sum p)) in *.
  set (d := number_in (disbursed p)) in *.
  assert (H1 : d / 100 <= 1) by (apply Qle_shift_div_r; lra).
  apply Qle_trans with (1 * c); [now apply Qmult_le_compat_r | lra].
Qed.

(** X7. When every project keeps the editor's limits (contract sum at
    least 0, disbursed from 0 to 100 percent), the aggregator returns a
    summary in which total disbursed does not exceed total contract and
    the balance is not negative, with or without the rider. *)
Theorem summary_balance_not_negative (ps : list Project) (added : bool)
    (amount : Q) :
  Forall within_limits ps ->
  exists s c d b,
    summary_statistics ps added amount = Ok s
    /\ total_contract s = Fin c /\ total_disbursed s = Fin d
    /\ summary_balance s = Fin b
    /\ d <= c /\ 0 <= b.
Proof.
  intros Hlim.
  assert (Hwf : Forall well_formed ps)
    by (eapply Forall_impl; [exact Hlim | now intros p (? & _)]).
  assert (Hle : sigma disbursed_share ps
                <= sigma (fun p => number_in (contract_sum p)) ps).
  { apply sigma_le. eapply Forall_impl; [exact Hlim|].
    intros p Hp. now apply disbursed_share_le. }
  unfold summary_statistics.
  rewrite (count_completed_spec ps 0 Hwf). simpl.
  destruct (well_formed_terms ps Hwf) as (Ha & Hc & Hd).
  destruct (py_sum_spec _ _ ps 0 Ha) as (qa & -> & _).
  destruct (py_sum_spec _ _ ps 0 Hc) as (qc & -> & Hqc).
  destruct (py_sum_spec _ _ ps 0 Hd) as (qd & -> & Hqd).
  simpl. destruct added; simpl; do 4 eexists;
    (split; [reflexivity|]); simpl; repeat split; lra.
Qed.

Lemma summary_balance_not_negative_witness :
  exists s c d b,
    summary_statistics example_projects true 215013 = Ok s
    /\ total_contract s = Fin c /\ total_disbursed s = Fin d
    /\ summary_balance s = Fin b
    /\ d <= c /\ 0 <= b.
Proof.
  apply (summary_balance_not_negative example_projects true 215013).
  repeat constructor; simpl; lra.
Defined.

Section RecalcThenSummary.

Variable parse_numeric : string -> num.


End RecalcThenSummary.

(** The example frame has text where the aggregator reads numbers; it
    goes through once recalculated. *)
Example summary_after_recalc_example :
  summary_statistics example_frame false 0 = Raise TypeError
  /\ is_Ok (summary_statistics (recalc_projects example_reader example_frame)
              false 0).
Proof. split; [reflexivity | exact I]. Qed.


(** ** The report on any input *)

Section ReportFacts.

Variable repr_float : num -> string.
Variable float_of_string : string -> option num.
Variable now : string.
Variable write_pdf : string -> result string.
Variable str_exn : exn -> string.
Variable format_exc : exn -> string.

Abbreviation html_report := (create_html_report repr_float float_of_string now).
Abbreviation rows_from := (project_rows_from repr_float float_of_string).

Lemma py_float_ok (c : cell) :
  is_Ok (py_float float_of_string c) <-> floatable float_of_string c.
Proof.
  clear repr_float now write_pdf str_exn format_exc.
  destruct c as [x|s|]; simpl; try tauto.
  destruct (float_of_string s); simpl; split; try tauto; try eauto.
  - intros [? [=]].
Qed.

Lemma project_rows_from_ok (ps : list Project) (i : nat) (acc : string) :
  is_Ok (rows_from i ps acc) <-> Forall (convertible float_of_string) ps.
Proof.
  clear now write_pdf str_exn format_exc.
  revert i acc. induction ps as [|p ps IH]; intros i acc.
  - simpl. split; [constructor | exact (fun _ => I)].
  - rewrite Forall_cons. unfold convertible at 1.
    rewrite <- !py_float_ok. cbn [project_rows_from].
    destruct (py_float _ (approved_cost p)); cbn [rbind is_Ok]; [|tauto].
    destruct (py_float _ (contract_sum p)); cbn [rbind is_Ok]; [|tauto].
    destruct (py_float _ (disbursed p)); cbn [rbind is_Ok]; [|tauto].
    destruct (py_float _ (balance p)); cbn [rbind is_Ok]; [|tauto].
    destruct (py_float _ (completion p)); cbn [rbind is_Ok]; [|tauto].
    rewrite IH. tauto.
Qed.


Lemma project_rows_from_s_no (f : Project -> cell) (ps : list Project)
    (i : nat) (acc : string) :
  rows_from i (map (fun p => set_s_no (f p) p) ps) acc = rows_from i ps acc.
Proof.
  revert i acc. induction ps as [|p ps IH]; intros i acc; [reflexivity|].
  cbn [map project_rows_from]. cbn [set_s_no approved_cost contract_sum
    disbursed balance completion].
  destruct (py_float _ (approved_cost p)); cbn [rbind]; [|reflexivity].
  destruct (py_float _ (contract_sum p)); cbn [rbind]; [|reflexivity].
  destruct (py_float _ (disbursed p)); cbn [rbind]; [|reflexivity].
  destruct (py_float _ (balance p)); cbn [rbind]; [|reflexivity].
  destruct (py_float _ (completion p)); cbn [rbind]; [|reflexivity].
  rewrite IH. reflexivity.
Qed.

(** X10. The stored sequence numbers play no part in the report: with
    the [s_no] entries replaced by anything at all, the report, or the
    exception raised instead, is the same.  The table numbers its rows
    by position. *)
Theorem create_html_report_ignores_s_no (f : Project -> cell)
    (ps : list Project) (info : institution_info.t)
    (team : list team_member.t) (approval : approval_info.t)
    (summary : Summary) (orientation : string) (logo : option string) :
  html_report (map (fun p => set_s_no (f p) p) ps) info team approval summary
    orientation logo
  = html_report ps info team approval summary orientation logo.
Proof. unfold create_html_report. now rewrite project_rows_from_s_no. Qed.

(** X11. [generate_pdf] returns data in exactly one case: the report
    was built and the engine turned it into that data; nothing is then
    written to the page.  In every other case it returns no data. *)
Theorem generate_pdf_returns_data (ps : list Project)
    (info : institution_info.t) (team : list team_member.t)
    (approval : approval_info.t) (summary : Summary) (orientation : string)
    (logo : option string) (data : string) (shown : list message) :
  generate_pdf repr_float float_of_string now write_pdf str_exn format_exc
    ps info team approval summary orientation logo = (Ok (Some data), shown)
  <-> shown = []
      /\ exists html,
           html_report ps info team approval summary orientation logo = Ok html
           /\ write_pdf html = Ok data.
Proof.
  split; [apply generate_pdf_no_partial_output|].
  intros (-> & html & Hr & Hw). unfold generate_pdf.
  rewrite Hr. cbn [rbind]. rewrite Hw. reflexivity.
Qed.

End ReportFacts.


(** ** The team table, the summary block and the page around them *)

Ltac find_piece :=
  apply occurs_concat; cbn [In];
  repeat lazymatch goal with
         | |- ?a = ?x \/ _ => first [constr_eq a x; left; reflexivity | right]
         end.

Lemma occurs_concat_in (x y : string) (l : list string) :
  In y l -> occurs x y -> occurs x (String.concat "" l).
Proof.
  intros Hin Hxy. eapply occurs_trans; [exact Hxy|]. now apply occurs_concat.
Qed.

Lemma currency_2_shape (q : Q) :
  let cents := round_half_even (Qabs q * 100) in
  currency 2 (Fin q)
  = "₦" +:+ string_of_list_ascii
              (sign_of q ++ group3 (digits (cents / 100))
               ++ "."%char :: cents_digits cents).
Proof.
  intros cents. unfold currency, format_f, cents_digits.
  change (10 ^ Z.of_nat 2)%Z with 100%Z. change (inject_Z 100) with 100.
  fold cents. cbn [fixed_digits app].
  assert (H1 : ((cents mod 100 / 10) mod 10 = cents mod 100 / 10)%Z).
  { apply Z.mod_small. pose proof (Z.mod_pos_bound cents 100 eq_refl).
    split; [apply Z.div_pos; lia | apply Z.div_lt_upper_bound; lia]. }
  assert (H2 : ((cents mod 100) mod 10 = cents mod 10)%Z).
  { change 100%Z with (10 * 10)%Z.
    rewrite (Z.rem_mul_r cents 10 10) by lia.
    rewrite (Z.mul_comm 10), Z_mod_plus_full. apply Z.mod_mod. lia. }
  now rewrite H1, H2.
Qed.

Section PageFacts.

Variable repr_float : num -> string.
Variable float_of_string : string -> option num.
Variable now : string.

Abbreviation html_report := (create_html_report repr_float float_of_string now).
Abbreviation str' := (str repr_float).

Lemma team_rows_from_closed (team : list team_member.t) (i : nat)
    (acc : string) :
  team_rows_from repr_float i team acc
  = acc +:+ String.concat ""
              (imap (fun k m => team_row_html repr_float (i + k) m) team).
Proof.
  revert i acc. induction team as [|m team IH]; intros i acc.
  - simpl. now rewrite append_nil_r.
  - cbn [team_rows_from imap]. rewrite IH, concat_cons, append_assoc.
    rewrite Nat.add_0_r. do 3 f_equal. apply imap_ext. intros k q _.
    unfold compose. f_equal. lia.
Qed.

Lemma team_row_shows (i : nat) (m : team_member.t) :
  occurs (str_int i) (team_row_html repr_float i m)
  /\ occurs (str' (team_member.name m)) (team_row_html repr_float i m)
  /\ occurs (str' (team_member.designation m)) (team_row_html repr_float i m)
  /\ occurs signature_blank (team_row_html repr_float i m).
Proof.
  unfold team_row_html. repeat split; try solve [find_piece].
  match goal with
  | |- occurs _ (String.concat "" ?l) =>
      let y := eval cbn in (List.last l ""%string) in
      apply (occurs_concat_in _ y)
  end.
  - simpl. repeat first [left; reflexivity | right].
  - eexists ">"%string, _. reflexivity.
Qed.

(** X12. Whenever the report is produced it contains the team table:
    one row per team member in roster order, numbered from 1, each with
    the member's name and designation as entered and a blank for the
    signature. *)
Theorem report_team_table (ps : list Project) (info : institution_info.t)
    (team : list team_member.t) (approval : approval_info.t)
    (summary : Summary) (orientation : string) (logo : option string)
    (page : string) :
  html_report ps info team approval summary orientation logo = Ok page ->
  occurs (team_body repr_float team) page
  /\ Forall (fun m => forall i : nat,
               occurs (str_int i) (team_row_html repr_float i m)
               /\ occurs (str' (team_member.name m))
                    (team_row_html repr_float i m)
               /\ occurs (str' (team_member.designation m))
                    (team_row_html repr_float i m)
               /\ occurs signature_blank (team_row_html repr_float i m))
            team.
Proof.
  unfold create_html_report.
  destruct (project_rows_from _ _ 1 ps "") as [rows|]; cbn [rbind];
    [|discriminate].
  intros [= <-]. split.
  - rewrite team_rows_from_closed, append_nil_l.
    unfold team_body, page_html. cbn [Nat.add]. find_piece.
  - apply Forall_forall. intros m _ i. apply team_row_shows.
Qed.

(** X13. Whenever the report is produced it shows, as given, the
    institution name, location, inspection date and intervention year,
    the approval status, officer, date and comments, and the time of
    generation; and its summary block shows the three counts, the
    completion rate with one decimal and a percent sign, and the four
    money fields as the currency glyph with comma-grouped units, a point
    and exactly two digits of cents. *)
Theorem report_context_and_summary (ps : list Project)
    (info : institution_info.t) (team : list team_member.t)
    (approval : approval_info.t) (summary : Summary) (orientation : string)
    (logo : option string) (page : string) :
  html_report ps info team approval summary orientation logo = Ok page ->
  (occurs (institution_info.name info) page
   /\ occurs (institution_info.location info) page
   /\ occurs (institution_info.date info) page
   /\ occurs (institution_info.year info) page)
  /\ (occurs (approval_info.status approval) page
      /\ occurs (approval_info.officer approval) page
      /\ occurs (approval_info.date approval) page
      /\ occurs (approval_info.comments approval) page)
  /\ occurs now page
  /\ (occurs (str_int (total_projects summary)) page
      /\ occurs (str_int (completed summary)) page
      /\ occurs (str_Z (in_progress summary)) page
      /\ occurs (percent (Fin (completion_rate summary))) page
      /\ occurs (currency 2 (total_approved summary)) page
      /\ occurs (currency 2 (total_contract summary)) page
      /\ occurs (currency 2 (total_disbursed summary)) page
      /\ occurs (currency 2 (summary_balance summary)) page)
  /\ (forall q : Q,
        let cents := round_half_even (Qabs q * 100) in
        currency 2 (Fin q)
        = "₦" +:+ string_of_list_ascii
                    (sign_of q ++ group3 (digits (cents / 100))
                     ++ "."%char :: cents_digits cents)).
Proof.
  unfold create_html_report.
  destruct (project_rows_from _ _ 1 ps "") as [rows|]; cbn [rbind];
    [|discriminate].
  intros [= <-]. unfold page_html.
  repeat split; try solve [find_piece]. apply currency_2_shape.
Qed.

End PageFacts.

Lemma report_team_table_witness :
  exists page,
    create_html_report (fun _ => "0.0") (fun _ => None) "2026-11-03 09:00:00"
      example_projects sample_institution
      [team_member.mk (Text "Arch. A.A.") (Text "Team Lead")]
      sample_approval sample_summary "Landscape" None = Ok page
    /\ occurs (team_body (fun _ => "0.0")
                 [team_member.mk (Text "Arch. A.A.") (Text "Team Lead")]) page.
Proof.
  eexists. split; [reflexivity|].
  apply (report_team_table (fun _ => "0.0") (fun _ => None)
           "2026-11-03 09:00:00" example_projects sample_institution
           [team_member.mk (Text "Arch. A.A.") (Text "Team Lead")]
           sample_approval sample_summary "Landscape" None).
  reflexivity.
Defined.

Lemma report_context_and_summary_witness :
  exists page,
    create_html_report (fun _ => "0.0") (fun _ => None) "2026-11-03 09:00:00"
      example_projects sample_institution [] sample_approval sample_summary
      "Landscape" None = Ok page
    /\ occurs "Federal Polytechnic" page
    /\ occurs "No comments provided" page.
Proof.
  eexists. split; [reflexivity|].
  destruct (report_context_and_summary (fun _ => "0.0") (fun _ => None)
              "2026-11-03 09:00:00" example_projects sample_institution []
              sample_approval sample_summary "Landscape" None _ eq_refl)
    as ((Hname & _) & (_ & _ & _ & Hcomments) & _).
  split; [exact Hname | exact Hcomments].
Defined.


(** ** The PDF button *)

Section ButtonOutcomes.

Variable repr_float : num -> string.
Variable float_of_string : string -> option num.
Variable now : string.
Variable write_pdf : string -> result string.
Variable str_exn : exn -> string.
Variable format_exc : exn -> string.
Variable strftime_d_b_Y : datetime.date -> string.
Variable LOGO_BASE64 : option string.

Abbreviation button :=
  (pdf_button repr_float float_of_string now write_pdf str_exn format_exc
     strftime_d_b_Y LOGO_BASE64).
Abbreviation request := (pdf_request strftime_d_b_Y LOGO_BASE64).

Lemma pdf_request_typed (st : Session) (approval_date : datetime.date) :
  Forall typed (projects st) ->
  exists summary,
    summary_statistics (projects st) (bank_charges_added st)
      (bank_charges_amount st) = Ok summary
    /\ request st approval_date
       = Ok (if valid st
             then Some {|
               call_projects := pdf_projects st;
               call_institution_info := institution_info_of strftime_d_b_Y st;
               call_monitoring_team := monitoring_team st;
               call_approval_info :=
                 approval_info_of strftime_d_b_Y st approval_date;
               call_summary := summary;
               call_orientation := pdf_orientation st;
               call_logo := LOGO_BASE64 |}
             else None).
Proof.
  intros Htyped.
  apply (summary_statistics_ok _ (bank_charges_added st)
           (bank_charges_amount st)), is_Ok_ex in Htyped.
  destruct Htyped as [summary Hs]. exists summary. split; [exact Hs|].
  unfold pdf_request. rewrite Hs. cbn [rbind].
  now destruct (valid st).
Qed.

Lemma valid_spec (st : Session) :
  valid st = true
  <-> institution_name st <> ""%string /\ location st <> ""%string
      /\ projects st <> [].
Proof.
  unfold valid. rewrite !andb_true_iff, !negb_true_iff.
  rewrite !String.eqb_neq, Nat.eqb_neq.
  split.
  - intros ((H1 & H2) & H3). repeat split; try assumption.
    intros E. rewrite E in H3. now apply H3.
  - intros (H1 & H2 & H3). repeat split; try assumption.
    intros E. apply H3. now destruct (projects st).
Qed.

(** X14. The request passes validation exactly when the institution
    name and the location are not empty and there is at least one
    project.  When it does not, the renderer is not called: the one thing
    shown is the line asking to fix the validation errors, whatever the
    engine would have done. *)
Theorem pdf_button_validation (st : Session) (approval_date : datetime.date) :
  Forall typed (projects st) ->
  (valid st = true
   <-> institution_name st <> ""%string /\ location st <> ""%string
       /\ projects st <> [])
  /\ (valid st = false -> button st approval_date = Ok [fix_validation]).
Proof.
  intros Htyped. split; [apply valid_spec|]. intros Hinvalid.
  destruct (pdf_request_typed st approval_date Htyped) as (s & _ & Hreq).
  unfold pdf_button. rewrite Hreq, Hinvalid. reflexivity.
Qed.

(** X15. For a valid request whose rows can be converted, the report
    is built from the stored list (with the bank charges row when the
    rider is on) and the summary of the stored list, and the outcome
    follows the engine's result on that report: data that is not empty
    gives the success line and the download of exactly that data, with no
    error shown; empty data counts as a failure and gives the failure
    line alone; an [Exception] of the engine gives its message, its
    traceback and the failure line. *)
Theorem pdf_button_engine_result (st : Session)
    (approval_date : datetime.date) :
  Forall typed (projects st) ->
  Forall (convertible float_of_string) (projects st) ->
  valid st = true ->
  exists summary html,
    summary_statistics (projects st) (bank_charges_added st)
      (bank_charges_amount st) = Ok summary
    /\ create_html_report repr_float float_of_string now (pdf_projects st)
         (institution_info_of strftime_d_b_Y st) (monitoring_team st)
         (approval_info_of strftime_d_b_Y st approval_date) summary
         (pdf_orientation st) LOGO_BASE64 = Ok html
    /\ match write_pdf html with
       | Ok data =>
           button st approval_date
           = Ok (if String.eqb data ""
                 then [generation_failed]
                 else [generation_succeeded;
                       st_download_button "📥 Download Official PDF" data])
       | Raise e =>
           button st approval_date
           = if is_Exception e
             then Ok [st_error ("PDF generation failed: " +:+ str_exn e);
                      st_error (format_exc e);
                      generation_failed]
             else Raise e
       end.
Proof.
  intros Htyped Hconv Hvalid.
  destruct (pdf_request_typed st approval_date Htyped) as (s & Hs & Hreq).
  rewrite Hvalid in Hreq.
  assert (Hall : Forall (convertible float_of_string) (pdf_projects st)).
  { unfold pdf_projects. destruct (bank_charges_added st); [|exact Hconv].
    apply Forall_app. split; [exact Hconv|]. repeat constructor. }
  pose proof (proj2 (project_rows_from_ok repr_float float_of_string
                       (pdf_projects st) 1 "") Hall) as Hok.
  apply is_Ok_ex in Hok. destruct Hok as [rows Hrows].
  exists s. eexists. split; [exact Hs|]. split.
  - unfold create_html_report. rewrite Hrows. cbn [rbind]. reflexivity.
  - unfold pdf_button. rewrite Hreq. cbn [rbind call_projects
      call_institution_info call_monitoring_team call_approval_info
      call_summary call_orientation call_logo].
    unfold generate_pdf, create_html_report. rewrite Hrows. cbn [rbind].
    destruct (write_pdf _) as [data|e]; cbn [rbind].
    + now destruct (String.eqb data "").
    + now destruct (is_Exception e).
Qed.

(** X16. The button's branch survives every failure of the renderer:
    when the project entries the aggregator reads are floats and the
    engine raises nothing but [Exception]s, it returns normally with the
    lines to show, whether validation, conversion or the engine
    failed. *)
Theorem pdf_button_returns (st : Session) (approval_date : datetime.date) :
  Forall typed (projects st) ->
  (forall html e, write_pdf html = Raise e -> is_Exception e = true) ->
  is_Ok (button st approval_date).
Proof.
  intros Htyped Hengine.
  destruct (pdf_request_typed st approval_date Htyped) as (s & _ & Hreq).
  unfold pdf_button. rewrite Hreq. cbn [rbind].
  destruct (valid st); [|exact I].
  cbn [call_projects call_institution_info call_monitoring_team
       call_approval_info call_summary call_orientation call_logo].
  unfold generate_pdf.
  destruct (create_html_report _ _ _ _ _ _ _ _ _ _) as [html|e] eqn:Er;
    cbn [rbind].
  - destruct (write_pdf html) as [data|e] eqn:Ew; cbn [rbind].
    + now destruct (String.eqb data "").
    + now rewrite (Hengine _ _ Ew).
  - now rewrite (create_html_report_raises _ _ _ _ _ _ _ _ _ _ _ Er).
Qed.

End ButtonOutcomes.

Lemma pdf_button_validation_witness :
  pdf_button (fun _ => "0.0") (fun _ => None) "2026-11-03 09:00:00"
    (fun _ => Ok "%PDF-1.7") (fun _ => "") (fun _ => "")
    (fun _ => "03-Nov-2026") None unnamed_session (datetime.mk 2026 11 3)
  = Ok [fix_validation].
Proof.
  apply (pdf_button_validation (fun _ => "0.0") (fun _ => None)
           "2026-11-03 09:00:00" (fun _ => Ok "%PDF-1.7") (fun _ => "")
           (fun _ => "") (fun _ => "03-Nov-2026") None unnamed_session
           (datetime.mk 2026 11 3)).
  - repeat constructor.
  - reflexivity.
Defined.

Lemma pdf_button_engine_result_witness :
  exists summary html,
    summary_statistics (projects example_session)
      (bank_charges_added example_session)
      (bank_charges_amount example_session) = Ok summary
    /\ create_html_report (fun _ => "0.0") (fun _ => None)
         "2026-11-03 09:00:00" (pdf_projects example_session)
         (institution_info_of (fun _ => "03-Nov-2026") example_session)
         (monitoring_team example_session)
         (approval_info_of (fun _ => "03-Nov-2026") example_session
            (datetime.mk 2026 11 3))
         summary (pdf_orientation example_session) None = Ok html
    /\ pdf_button (fun _ => "0.0") (fun _ => None) "2026-11-03 09:00:00"
         (fun _ => Ok "%PDF-1.7") (fun _ => "") (fun _ => "")
         (fun _ => "03-Nov-2026") None example_session (datetime.mk 2026 11 3)
       = Ok [generation_succeeded;
             st_download_button "📥 Download Official PDF" "%PDF-1.7"].
Proof.
  destruct (pdf_button_engine_result (fun _ => "0.0") (fun _ => None)
              "2026-11-03 09:00:00" (fun _ => Ok "%PDF-1.7") (fun _ => "")
              (fun _ => "") (fun _ => "03-Nov-2026") None example_session
              (datetime.mk 2026 11 3))
    as (summary & html & Hs & Hhtml & Hbutton).
  - repeat constructor.
  - repeat constructor.
  - reflexivity.
  - exists summary, html. split; [exact Hs|]. split; [exact Hhtml|].
    exact Hbutton.
Defined.

Lemma pdf_button_returns_witness :
  is_Ok (pdf_button (fun _ => "0.0") (fun _ => None) "2026-11-03 09:00:00"
           (fun _ => Raise NameError) (fun _ => "") (fun _ => "")
           (fun _ => "03-Nov-2026") None example_session
           (datetime.mk 2026 11 3)).
Proof.
  apply (pdf_button_returns (fun _ => "0.0") (fun _ => None)
           "2026-11-03 09:00:00" (fun _ => Raise NameError) (fun _ => "")
           (fun _ => "") (fun _ => "03-Nov-2026") None example_session
           (datetime.mk 2026 11 3)).
  - repeat constructor.
  - intros html e [= <-]. reflexivity.
Defined.


(** ** The session across startup, loading and reset *)

Lemma touches_only_ret {A} (keys : list string) (a : A) :
  touches_only keys (ret a).
Proof. now intros st k _. Qed.

Lemma touches_only_lift {A} (keys : list string) (r : result A) :
  touches_only keys (lift r).
Proof. now intros st k _. Qed.

Lemma touches_only_setattr (keys : list string) (key : string) (v : pyvalue) :
  key ∈ keys -> touches_only keys (setattr key v).
Proof.
  intros Hin st k Hk. unfold setattr. simpl.
  apply lookup_insert_ne. intros ->. now apply Hk.
Qed.

Lemma touches_only_bind {A B} (keys : list string) (m : M A) (f : A -> M B) :
  touches_only keys m -> (forall a, touches_only keys (f a)) ->
  touches_only keys (bind m f).
Proof.
  intros Hm Hf st k Hk. unfold bind.
  specialize (Hm st k Hk). destruct (m st) as [[a|e] st1]; simpl in *.
  - now rewrite (Hf a st1 k Hk).
  - exact Hm.
Qed.

Lemma fill_defaults_lookup (defaults : list (string * pyvalue)) (st : Store)
    (k : string) :
  fold_left fill_default defaults st !! k
  = match st !! k with
    | Some v => Some v
    | None => (list_to_map defaults : gmap string pyvalue) !! k
    end.
Proof.
  revert st. induction defaults as [|[k1 v1] defaults IH]; intros st.
  - simpl. rewrite lookup_empty. now destruct (st !! k).
  - cbn [fold_left list_to_map foldr]. rewrite IH. unfold fill_default.
    cbn [fst snd]. destruct (decide (k1 = k)) as [->|Hne].
    + rewrite lookup_insert_eq. destruct (st !! k) eqn:E.
      * now rewrite E.
      * now rewrite lookup_insert_eq.
    + rewrite (lookup_insert_ne (list_to_map defaults)) by exact Hne.
      destruct (st !! k1); [reflexivity|].
      now rewrite lookup_insert_ne by exact Hne.
Qed.

Section SessionFacts.

Variable fromisoformat_date : string -> option datetime.date.
Variable today : datetime.date.
Variable this_year : string.

Abbreviation load := (load_autosave fromisoformat_date).
Abbreviation init := (init_store today this_year).
Abbreviation defaults := (init_defaults today this_year).

Lemma init_store_lookup (st : Store) (k : string) :
  init st !! k
  = match st !! k with
    | Some v => Some v
    | None => (list_to_map defaults : gmap string pyvalue) !! k
    end.
Proof. unfold init_store. apply (fill_defaults_lookup defaults). Qed.

Lemma init_store_again (st : Store) : init (init st) = init st.
Proof.
  apply map_eq. intros k. rewrite (init_store_lookup (init st)).
  destruct (init st !! k) eqn:E; [reflexivity|].
  rewrite init_store_lookup in E. now destruct (st !! k).
Qed.

(** X17. [init_state] never overwrites: a key the session already
    holds keeps its value, a key it lacks gets its default, so after it
    every default key is present; and running it again changes
    nothing. *)
Theorem init_state_fills_missing (st : Store) :
  (forall k v, st !! k = Some v -> init st !! k = Some v)
  /\ (forall k, st !! k = None ->
        init st !! k = (list_to_map defaults : gmap string pyvalue) !! k)
  /\ Forall (fun kv => is_Some (init st !! kv.1)) defaults
  /\ init (init st) = init st.
Proof.
  split; [|split; [|split]].
  - intros k v H. now rewrite init_store_lookup, H.
  - intros k H. now rewrite init_store_lookup, H.
  - apply Forall_forall. intros [k v] Hin. cbn [fst].
    rewrite init_store_lookup. destruct (st !! k); [eauto|].
    apply elem_of_dom. rewrite dom_list_to_map_L.
    apply elem_of_list_to_set, list_elem_of_fmap. now exists (k, v).
  - apply init_store_again.
Qed.

End SessionFacts.


Ltac key_listed :=
  unfold assigned_keys, saved_keys; apply list_elem_of_In; simpl;
  repeat first [left; reflexivity | right].

Ltac session_steps :=
  repeat first
    [ apply touches_only_bind
    | apply touches_only_lift
    | apply touches_only_ret
    | apply touches_only_setattr; key_listed
    | intros ? ].

(** X18. [load_autosave] assigns only the twelve saved keys and
    [draft_loaded]: every other key of the session, such as the state
    of a widget or [generated_reports], is as before, whether the load
    returns or raises part way through; and without a file nothing
    changes at all. *)
Theorem load_autosave_touches_saved_keys
    (fromisoformat_date : string -> option datetime.date)
    (file : autosave_file) (st : Store) :
  (forall k, k ∉ assigned_keys ->
     (load_autosave fromisoformat_date file st).2 !! k = st !! k)
  /\ load_autosave fromisoformat_date NoFile st = (Ok tt, st).
Proof.
  split; [|reflexivity].
  intros k Hk. revert st k Hk.
  change (touches_only assigned_keys (load_autosave fromisoformat_date file)).
  unfold load_autosave, load_key. destruct file as [|parsed].
  - apply touches_only_ret.
  - session_steps.
Qed.






Ltac stored_key :=
  repeat (rewrite lookup_insert_ne by discriminate);
  rewrite lookup_insert_eq.

Lemma autosave_load_inverse
    (strftime_Y_m_d : datetime.date -> string) (saved_at : string)
    (fromisoformat_date : string -> option datetime.date)
    (st st0 : Store) (d : datetime.date) :
  Forall (holds_json st) json_keys ->
  st !! "inspection_date" = Some (PDate d) ->
  fromisoformat_date (strftime_Y_m_d d) = Some d ->
  exists draft st1,
    autosave strftime_Y_m_d saved_at st = Written draft
    /\ load_autosave fromisoformat_date (FileWith (Some draft)) st0
       = (Ok tt, st1)
    /\ Forall (fun k => st1 !! k = st !! k) saved_keys
    /\ st1 !! "draft_loaded" = Some (PJson (JString saved_at)).
Proof.
  intros Hjson Hdate Hiso. unfold json_keys, holds_json in Hjson.
  repeat match goal with
         | H : Forall _ (_ :: _) |- _ =>
             apply Forall_cons in H; destruct H as [[? ?] H]
         end.
  unfold autosave, draft_dict, session_attr, strftime_of.
  rewrite Hdate.
  repeat match goal with
         | H : st !! _ = Some (PJson _) |- _ => rewrite H
         end.
  cbv beta iota delta [rbind dump_members dump_value].
  do 2 eexists. split; [reflexivity|].
  unfold load_autosave, load_key, bind, lift, getitem, dict_get, setattr,
    parse_date.
  repeat match goal with
         | |- context [dict_of ?ms !! ?k] =>
             let v := eval vm_compute in (dict_of ms !! k) in
             change (dict_of ms !! k) with v
         end.
  cbv beta iota delta [default id]. rewrite Hiso. cbv beta iota.
  split; [reflexivity|]. split.
  - unfold saved_keys.
    repeat (apply Forall_cons; split; [stored_key; congruence|]).
    constructor.
  - stored_key. reflexivity.
Qed.

(** X20. Saving and loading are inverse on the saved fields.  For a
    session that holds JSON values under the saved keys and a date as
    inspection date, with a date reader that reads back what [strftime]
    writes, [autosave] writes a draft, and [load_autosave] on that draft
    returns, from any session, with all twelve saved keys holding the
    values they had when saved and [draft_loaded] holding the time of
    saving. *)
Theorem autosave_then_load
    (strftime_Y_m_d : datetime.date -> string) (saved_at : string)
    (fromisoformat_date : string -> option datetime.date)
    (st st0 : Store) (d : datetime.date) :
  Forall (holds_json st) json_keys ->
  st !! "inspection_date" = Some (PDate d) ->
  fromisoformat_date (strftime_Y_m_d d) = Some d ->
  exists draft st1,
    autosave strftime_Y_m_d saved_at st = Written draft
    /\ load_autosave fromisoformat_date (FileWith (Some draft)) st0
       = (Ok tt, st1)
    /\ Forall (fun k => st1 !! k = st !! k) saved_keys
    /\ st1 !! "draft_loaded" = Some (PJson (JString saved_at)).
Proof. apply autosave_load_inverse. Qed.

Lemma autosave_then_load_witness :
  exists draft st1,
    autosave (fun _ => "2026-11-03") "2026-11-03T09:00:00" example_store
    = Written draft
    /\ load_autosave (fun _ => Some (datetime.mk 2026 11 3))
         (FileWith (Some draft)) ∅ = (Ok tt, st1)
    /\ Forall (fun k => st1 !! k = example_store !! k) saved_keys
    /\ st1 !! "draft_loaded" = Some (PJson (JString "2026-11-03T09:00:00")).
Proof.
  apply (autosave_then_load (fun _ => "2026-11-03") "2026-11-03T09:00:00"
           (fun _ => Some (datetime.mk 2026 11 3)) example_store ∅
           (datetime.mk 2026 11 3)).
  - unfold json_keys, holds_json.
    repeat constructor; eexists; vm_compute; reflexivity.
  - vm_compute. reflexivity.
  - reflexivity.
Defined.


Section ResetFacts.

Variable fromisoformat_date : string -> option datetime.date.
Variable today : datetime.date.
Variable this_year : string.

Abbreviation init := (init_store today this_year).
Abbreviation defaults := (init_defaults today this_year).

Lemma init_store_complete (st : Store) :
  Forall (fun kv => is_Some (st !! kv.1)) defaults -> init st = st.
Proof.
  intros Hall. apply map_eq. intros k. rewrite init_store_lookup.
  destruct (st !! k) eqn:E; [reflexivity|].
  apply not_elem_of_list_to_map_1. intros Hin.
  apply list_elem_of_fmap in Hin as ([k' v] & -> & Hin).
  rewrite Forall_forall in Hall. specialize (Hall _ Hin). cbn [fst] in *.
  rewrite E in Hall. now destruct Hall.
Qed.

Lemma init_store_fresh_draft_loaded :
  truthy (init ∅ !! "draft_loaded") = false.
Proof.
  rewrite init_store_lookup, lookup_empty.
  rewrite (elem_of_list_to_map_1 _ "draft_loaded" (PJson JNull)).
  - reflexivity.
  - apply NoDup_ListNoDup. cbn [fmap list_fmap init_defaults fst].
    repeat (constructor; [simpl; intuition discriminate|]). constructor.
  - apply list_elem_of_In. simpl.
    repeat first [left; reflexivity | right].
Qed.

(** X21. Once a draft is loaded the start of the script leaves the
    session alone: with every default key present and [draft_loaded]
    holding a true value, the next run neither fills in defaults nor
    reads the file again, whatever the file holds. *)
Theorem startup_leaves_loaded_session (file : autosave_file) (st : Store) :
  Forall (fun kv => is_Some (st !! kv.1)) defaults ->
  truthy (st !! "draft_loaded") = true ->
  startup fromisoformat_date today this_year file st = (Ok tt, st).
Proof.
  intros Hall Hloaded. unfold startup, bind, init_state.
  rewrite (init_store_complete st Hall).
  destruct file; [reflexivity|]. now rewrite Hloaded.
Qed.

(** X22. A reset does not outlast the rerun it ends with.  Deleting
    every key brings back [draft_loaded = None], so the next run loads
    the autosave file again: the outcome is that of [load_autosave] on
    the default session, and a session saved before the reset has its
    twelve saved fields back. *)
Theorem reset_is_undone_by_rerun
    (strftime_Y_m_d : datetime.date -> string) (saved_at : string)
    (file : autosave_file) (st : Store) (d : datetime.date) :
  reset_and_rerun fromisoformat_date today this_year file st
  = load_autosave fromisoformat_date file (init ∅)
  /\ (Forall (holds_json st) json_keys ->
      st !! "inspection_date" = Some (PDate d) ->
      fromisoformat_date (strftime_Y_m_d d) = Some d ->
      exists draft st1,
        autosave strftime_Y_m_d saved_at st = Written draft
        /\ reset_and_rerun fromisoformat_date today this_year
             (FileWith (Some draft)) st = (Ok tt, st1)
        /\ Forall (fun k => st1 !! k = st !! k) saved_keys).
Proof.
  assert (Hrerun : forall f,
             reset_and_rerun fromisoformat_date today this_year f st
             = load_autosave fromisoformat_date f (init ∅)).
  { intros f. unfold reset_and_rerun, reset_all, startup, bind, init_state.
    rewrite init_store_again. destruct f; [reflexivity|].
    now rewrite init_store_fresh_draft_loaded. }
  split; [apply Hrerun|].
  intros Hjson Hdate Hiso.
  destruct (autosave_load_inverse strftime_Y_m_d saved_at fromisoformat_date
              st (init ∅) d Hjson Hdate Hiso)
    as (draft & st1 & Hsave & Hload & Hkeys & _).
  exists draft, st1. split; [exact Hsave|]. split; [|exact Hkeys].
  now rewrite Hrerun.
Qed.

End ResetFacts.

Lemma startup_leaves_loaded_session_witness :
  startup (fun _ => None) (datetime.mk 2026 11 3) "2026"
    (FileWith (Some (JObject truncated_snapshot)))
    (<["draft_loaded" := PJson (JString "2026-11-03T09:00:00")]> example_store)
  = (Ok tt,
     <["draft_loaded" := PJson (JString "2026-11-03T09:00:00")]> example_store).
Proof.
  apply (startup_leaves_loaded_session (fun _ => None)
           (datetime.mk 2026 11 3) "2026").
  - unfold init_defaults.
    repeat constructor; eexists; vm_compute; reflexivity.
  - vm_compute. reflexivity.
Defined.


Lemma reset_is_undone_by_rerun_witness :
  exists draft st1,
    autosave (fun _ => "2026-11-03") "2026-11-03T09:00:00" example_store
    = Written draft
    /\ reset_and_rerun (fun _ => Some (datetime.mk 2026 11 3))
         (datetime.mk 2026 11 3) "2026" (FileWith (Some draft)) example_store
       = (Ok tt, st1)
    /\ Forall (fun k => st1 !! k = example_store !! k) saved_keys.
Proof.
  apply (reset_is_undone_by_rerun (fun _ => Some (datetime.mk 2026 11 3))
           (datetime.mk 2026 11 3) "2026" (fun _ => "2026-11-03")
           "2026-11-03T09:00:00" NoFile example_store
           (datetime.mk 2026 11 3)).
  - unfold json_keys, holds_json.
    repeat constructor; eexists; vm_compute; reflexivity.
  - vm_compute. reflexivity.
  - reflexivity.
Defined.

Ltac read_attr st k :=
  destruct (st !! k) as [[?|?]|] eqn:?; cbv beta iota;
  [| |reflexivity].

(** What each outcome of [autosave] tells about the session. *)
Lemma autosave_cases (strftime_Y_m_d : datetime.date -> string)
    (saved_at : string) (st : Store) :
  match autosave strftime_Y_m_d saved_at st with
  | Written draft =>
      Forall (holds_json st) json_keys
      /\ (exists d, st !! "inspection_date" = Some (PDate d))
      /\ exists members,
           draft = JObject members
           /\ map fst members = saved_keys ++ ["saved_at"%string]
  | NotWritten e => e = AttributeError
  | Broken e => e = TypeError
  end.
Proof.
  unfold autosave, draft_dict, session_attr, strftime_of.
  destruct (st !! "projects") as [v1|] eqn:E1; cbv beta iota delta [rbind];
    [|reflexivity].
  destruct (st !! "institution_name") as [v2|] eqn:E2;
    cbv beta iota delta [rbind]; [|reflexivity].
  destruct (st !! "location") as [v3|] eqn:E3;
    cbv beta iota delta [rbind]; [|reflexivity].
  destruct (st !! "intervention_year") as [v4|] eqn:E4;
    cbv beta iota delta [rbind]; [|reflexivity].
  destruct (st !! "inspection_date") as [[j|d]|] eqn:E5;
    cbv beta iota delta [rbind]; [reflexivity| |reflexivity].
  destruct (st !! "bank_charges_added") as [v6|] eqn:E6;
    cbv beta iota delta [rbind]; [|reflexivity].
  destruct (st !! "bank_charges_amount") as [v7|] eqn:E7;
    cbv beta iota delta [rbind]; [|reflexivity].
  destruct (st !! "monitoring_team") as [v8|] eqn:E8;
    cbv beta iota delta [rbind]; [|reflexivity].
  destruct (st !! "approval_status") as [v9|] eqn:E9;
    cbv beta iota delta [rbind]; [|reflexivity].
  destruct (st !! "dme_officer") as [v10|] eqn:E10;
    cbv beta iota delta [rbind]; [|reflexivity].
  destruct (st !! "approval_comments") as [v11|] eqn:E11;
    cbv beta iota delta [rbind]; [|reflexivity].
  destruct (st !! "pdf_orientation") as [v12|] eqn:E12;
    cbv beta iota delta [rbind]; [|reflexivity].
  destruct v1; [|reflexivity]. destruct v2; [|reflexivity].
  destruct v3; [|reflexivity]. destruct v4; [|reflexivity].
  destruct v6; [|reflexivity]. destruct v7; [|reflexivity].
  destruct v8; [|reflexivity]. destruct v9; [|reflexivity].
  destruct v10; [|reflexivity]. destruct v11; [|reflexivity].
  destruct v12; [|reflexivity].
  cbv beta iota delta [rbind dump_members dump_value].
  split; [|split; [eauto|]].
  - unfold json_keys, holds_json. repeat constructor; eauto.
  - eexists. split; reflexivity.
Qed.

(** X23. [autosave] writes a draft exactly when the session holds a
    JSON value under each saved key and a date as inspection date; the
    draft then has the thirteen members in the order of the source, the
    last one [saved_at].  A missing key, or an inspection date that is not
    a date, raises [AttributeError] before the file is opened; a date
    under any other key raises [TypeError] inside [json.dump], after the
    file was opened for writing. *)
Theorem autosave_outcomes (strftime_Y_m_d : datetime.date -> string)
    (saved_at : string) (st : Store) :
  ((exists draft, autosave strftime_Y_m_d saved_at st = Written draft)
   <-> Forall (holds_json st) json_keys
       /\ exists d, st !! "inspection_date" = Some (PDate d))
  /\ match autosave strftime_Y_m_d saved_at st with
     | Written draft =>
         exists members,
           draft = JObject members
           /\ map fst members = saved_keys ++ ["saved_at"%string]
     | NotWritten e => e = AttributeError
     | Broken e => e = TypeError
     end.
Proof.
  pose proof (autosave_cases strftime_Y_m_d saved_at st) as Hcases.
  split.
  - split.
    + intros (draft & Hsave). rewrite Hsave in Hcases.
      destruct Hcases as (Hjson & Hdate & _). split; assumption.
    + intros (Hjson & d & Hdate).
      destruct (autosave_load_inverse strftime_Y_m_d saved_at
                  (fun _ => Some d) st st d Hjson Hdate eq_refl)
        as (draft & _ & Hsave & _).
      exists draft. exact Hsave.
  - destruct (autosave strftime_Y_m_d saved_at st);
      [apply Hcases | exact Hcases | exact Hcases].
Qed.

(** ** The approval selector *)

Lemma list_index_spec (options : list string) (x : string) :
  match list_index options x with
  | Ok i => options !! i = Some x /\ x ∉ take i options
  | Raise e => e = ValueError /\ x ∉ options
  end.
Proof.
  induction options as [|o options IH]; simpl.
  - split; [reflexivity | apply not_elem_of_nil].
  - destruct (String.eqb_spec o x) as [->|Hne].
    + split; [reflexivity | apply not_elem_of_nil].
    + destruct (list_index options x) as [i|e]; simpl.
      * destruct IH as [Hi Hbefore]. split; [exact Hi|].
        intros Hin. apply elem_of_cons in Hin as [->|Hin]; [now apply Hne|].
        now apply Hbefore.
      * destruct IH as [-> Hout]. split; [reflexivity|].
        intros Hin. apply elem_of_cons in Hin as [->|Hin]; [now apply Hne|].
        now apply Hout.
Qed.

(** X24. The approval selector is built for a stored status that is
    one of the four options, and then starts on that option; for any
    other status, which [load_autosave] stores without looking at it,
    computing the position raises [ValueError]. *)
Theorem approval_index_outcomes (approval_status : string) :
  match approval_index approval_status with
  | Ok i => approval_options !! i = Some approval_status
  | Raise e => e = ValueError /\ approval_status ∉ approval_options
  end.
Proof.
  unfold approval_index.
  pose proof (list_index_spec approval_options approval_status) as H.
  destruct (list_index approval_options approval_status); [apply H | exact H].
Qed.

(** ** Grouping and digits *)

Lemma strip_commas_rev (rds : list ascii) (k : nat) :
  Forall (fun c => c <> ","%char) rds ->
  strip_commas (commas_rev k rds) = rds.
Proof.
  unfold strip_commas. intros Hall. revert k.
  induction Hall as [|d rds Hd _ IH]; intros k; [reflexivity|].
  assert (Hkeep : negb (Ascii.eqb d ",") = true)
    by (apply negb_true_iff, Ascii.eqb_neq, Hd).
  destruct k as [|[|[|[|k]]]]; simpl; rewrite Hkeep, IH; reflexivity.
Qed.

Lemma digit_is_not_comma (n : Z) : (0 <= n < 10)%Z -> digit n <> ","%char.
Proof.
  intros Hn E. apply (f_equal digit_value) in E.
  rewrite digit_value_digit in E by exact Hn.
  change (digit_value ",") with (-4)%Z in E. lia.
Qed.

Lemma digits_upto_are_digits (fuel : nat) (n : Z) (acc : list ascii) :
  (0 <= n)%Z -> Forall is_digit acc ->
  Forall is_digit (digits_upto fuel n acc).
Proof.
  revert n acc. induction fuel as [|fuel IH]; intros n acc Hn Hacc;
    [exact Hacc|].
  cbn [digits_upto]. destruct (n <? 10)%Z eqn:E.
  - apply Z.ltb_lt in E. constructor; [|exact Hacc]. exists n. now split.
  - apply IH; [apply Z.div_pos; lia|].
    constructor; [|exact Hacc]. exists (n mod 10)%Z.
    split; [apply Z.mod_pos_bound; lia | reflexivity].
Qed.

Lemma digits_upto_length (fuel : nat) (n : Z) (acc : list ascii) :
  (length acc <= length (digits_upto fuel n acc))%nat.
Proof.
  revert n acc. induction fuel as [|fuel IH]; intros n acc; [reflexivity|].
  cbn [digits_upto]. destruct (n <? 10)%Z; [cbn [length]; lia|].
  etransitivity; [|apply IH]. cbn [length]. lia.
Qed.

(** X25. Grouping changes nothing but the commas: the digits of a
    number of at least 0 are decimal digit characters, at least one of
    them, and taking the commas out of the grouped digits gives the
    digits back, so a formatted amount reads as the rounded amount. *)
Theorem group3_only_adds_commas (n : Z) :
  (0 <= n)%Z ->
  Forall is_digit (digits n)
  /\ digits n <> []
  /\ strip_commas (group3 (digits n)) = digits n
  /\ value_of (strip_commas (group3 (digits n))) = n.
Proof.
  intros Hn.
  assert (Hdigits : Forall is_digit (digits n))
    by (apply digits_upto_are_digits; [exact Hn | constructor]).
  assert (Hstrip : strip_commas (group3 (digits n)) = digits n).
  { unfold group3, strip_commas. rewrite filter_rev.
    fold (strip_commas (commas_rev 0 (rev (digits n)))).
    rewrite strip_commas_rev; [apply rev_involutive|].
    apply Forall_rev. eapply Forall_impl; [exact Hdigits|].
    intros c (m & Hm & ->). now apply digit_is_not_comma. }
  split; [exact Hdigits|]. split; [|split; [exact Hstrip|]].
  - unfold digits. cbn [digits_upto]. destruct (n <? 10)%Z; [discriminate|].
    intros Hnil. apply (f_equal (@length ascii)) in Hnil.
    pose proof (digits_upto_length (Z.to_nat (Z.log2 n)) (n / 10)
                  [digit (n mod 10)]) as Hlen.
    rewrite Hnil in Hlen. cbn [length] in Hlen. lia.
  - rewrite Hstrip. now apply digits_value.
Qed.

Lemma group3_only_adds_commas_witness :
  strip_commas (group3 (digits 1234567)) = digits 1234567
  /\ value_of (strip_commas (group3 (digits 1234567))) = 1234567%Z.
Proof.
  destruct (group3_only_adds_commas 1234567) as (_ & _ & H1 & H2).
  - lia.
  - split; [exact H1 | exact H2].
Defined.
